(** * BookContext: the book-collection store of the BookShelf app

    A shallow embedding of [context/BookContext.tsx] (the provider's
    [getBook], [addBook], [updateBook], [deleteBook], [updateBookStatus],
    [updateBookProgress] and the helper [generateUUID]) together with the
    [Book] and [BookFormData] types of [types.ts], followed by the
    properties of the store that the specification lists.  The provider's
    two storage effects, the progress prompt of the detail screen and
    [validateForm] and [handleSave] of the add and edit form are embedded
    as well, with the properties their code shows. *)

From Stdlib Require Import ZArith NArith Ascii String.
From Stdlib Require Import Hexadecimal HexadecimalString.
From stdpp Require Import base tactics option list strings.

Local Open Scope string_scope.
Local Open Scope list_scope.

(** ** JavaScript values used by the store *)

Module Js.

(** Truthiness of an optional string ([undefined] and the empty string
    are falsy). *)
Definition truthy (o : option string) : bool :=
  match o with
  | Some s => negb (String.eqb s "")
  | None => false
  end.

(** [o || d] where [o] is an optional string and [d] a string. *)
Definition str_or (o : option string) (d : string) : string :=
  match o with
  | Some s => if String.eqb s "" then d else s
  | None => d
  end.

(** [o || d] where [o] is an optional integer-valued number: [undefined]
    and [0] are falsy. *)
Definition num_or (o : option Z) (d : Z) : Z :=
  match o with
  | Some n => if (n =? 0)%Z then d else n
  | None => d
  end.

(** [v.toString(16)] for a non-negative integer [v]. *)
Definition toString16 (v : N) : string :=
  NilZero.string_of_uint (N.to_hex_uint v).

End Js.

(** ** types.ts *)

Inductive Status : Type := wantToRead | reading | completed.

#[global] Instance Status_eq_dec : EqDecision Status.
Proof. solve_decision. Defined.

(** [Book] and [BookFormData = Omit<Book, 'id'> & { id?: string }] differ
    only in the type of [id]; the record is parametrised by it.  Optional
    fields are [option]s; [coverImage?: string | null] has the three states
    absent, [null] and a string.  Numbers are the integer-valued ones. *)
Record BookOf (I : Type) : Type := mkBook {
  id : I;
  title : string;
  author : string;
  genre : option string;
  publicationDate : option string;
  pageCount : option Z;
  coverImage : option (option string);
  status : Status;
  currentPage : option Z;
  startDate : option string;
  endDate : option string;
  isbn : option string;
  publisher : option string;
  language : option string;
  notes : option string;
  rating : option Z
}.

Arguments mkBook {I}.
Arguments id {I} _.
Arguments title {I} _.
Arguments author {I} _.
Arguments genre {I} _.
Arguments publicationDate {I} _.
Arguments pageCount {I} _.
Arguments coverImage {I} _.
Arguments status {I} _.
Arguments currentPage {I} _.
Arguments startDate {I} _.
Arguments endDate {I} _.
Arguments isbn {I} _.
Arguments publisher {I} _.
Arguments language {I} _.
Arguments notes {I} _.
Arguments rating {I} _.

Abbreviation Book := (BookOf string).
Abbreviation BookFormData := (BookOf (option string)).

(** Object spread with one overridden property: [{ ...b, f: v }]. *)
Definition with_id {I J : Type} (v : J) (b : BookOf I) : BookOf J :=
  mkBook v (title b) (author b) (genre b) (publicationDate b) (pageCount b)
    (coverImage b) (status b) (currentPage b) (startDate b) (endDate b)
    (isbn b) (publisher b) (language b) (notes b) (rating b).

Definition with_status {I : Type} (v : Status) (b : BookOf I) : BookOf I :=
  mkBook (id b) (title b) (author b) (genre b) (publicationDate b)
    (pageCount b) (coverImage b) v (currentPage b) (startDate b) (endDate b)
    (isbn b) (publisher b) (language b) (notes b) (rating b).

Definition with_currentPage {I : Type} (v : Z) (b : BookOf I) : BookOf I :=
  mkBook (id b) (title b) (author b) (genre b) (publicationDate b)
    (pageCount b) (coverImage b) (status b) (Some v) (startDate b) (endDate b)
    (isbn b) (publisher b) (language b) (notes b) (rating b).

Definition with_startDate {I : Type} (v : string) (b : BookOf I) : BookOf I :=
  mkBook (id b) (title b) (author b) (genre b) (publicationDate b)
    (pageCount b) (coverImage b) (status b) (currentPage b) (Some v)
    (endDate b) (isbn b) (publisher b) (language b) (notes b) (rating b).

Definition with_endDate {I : Type} (v : string) (b : BookOf I) : BookOf I :=
  mkBook (id b) (title b) (author b) (genre b) (publicationDate b)
    (pageCount b) (coverImage b) (status b) (currentPage b) (startDate b)
    (Some v) (isbn b) (publisher b) (language b) (notes b) (rating b).

(** ** generateUUID *)

(** [random16 k] stands for the value of [Math.random() * 16 | 0] at the
    [k]-th replacement. *)
Definition Random : Type := nat -> N.

Definition uuid_template : string := "xxxxxxxx-xxxx-4xxx-yxxx-xxxxxxxxxxxx".

(** The replacer callback of [generateUUID], given the drawn [r]. *)
Definition uuid_digit (r : N) (c : ascii) : string :=
  let v := if Ascii.eqb c "x" then r else N.lor (N.land r 3) 8 in
  Js.toString16 v.

(** [s.replace(/[xy]/g, callback)], the callback drawing a fresh random
    value at every match. *)
Fixpoint replace_xy (random16 : Random) (k : nat) (s : string) : string :=
  match s with
  | EmptyString => EmptyString
  | String c rest =>
      if Ascii.eqb c "x" || Ascii.eqb c "y"
      then uuid_digit (random16 k) c ++ replace_xy random16 (S k) rest
      else String c (replace_xy random16 k rest)
  end.

Definition generateUUID (random16 : Random) : string :=
  replace_xy random16 0 uuid_template.

(** Whether a template has a character that the pattern [/[xy]/] does not
    match, and which the replacement therefore keeps. *)
Fixpoint has_literal (s : string) : bool :=
  match s with
  | EmptyString => false
  | String c rest =>
      negb (Ascii.eqb c "x" || Ascii.eqb c "y") || has_literal rest
  end.

(** ** The provider's closures

    Every closure of one render sees the same [books] snapshot; [setBooks]
    does not change that snapshot but records the array the next render
    will show, a later [setBooks] replacing an earlier one.  A rejected
    promise carries the message of the thrown [Error]. *)

Inductive Outcome (A : Type) : Type :=
| Resolved (a : A)
| Rejected (message : string).

Arguments Resolved {A} a.
Arguments Rejected {A} message.

Definition Action (A : Type) : Type :=
  list Book -> option (list Book) -> Outcome A * option (list Book).

#[global] Instance Action_ret : MRet Action :=
  fun A a _ pending => (Resolved a, pending).

#[global] Instance Action_bind : MBind Action :=
  fun A B k m books pending =>
    match m books pending with
    | (Resolved a, pending') => k a books pending'
    | (Rejected msg, pending') => (Rejected msg, pending')
    end.

Definition throw {A : Type} (msg : string) : Action A :=
  fun _ pending => (Rejected msg, pending).

Definition snapshot : Action (list Book) :=
  fun books pending => (Resolved books, pending).

Definition setBooks (updatedBooks : list Book) : Action unit :=
  fun _ _ => (Resolved tt, Some updatedBooks).

(** The collection shown by the render that follows an action. *)
Definition next_books (books : list Book) (pending : option (list Book))
  : list Book :=
  match pending with
  | Some updatedBooks => updatedBooks
  | None => books
  end.

Definition run {A : Type} (books : list Book) (m : Action A)
  : Outcome A * list Book :=
  let (r, pending) := m books None in (r, next_books books pending).

(** [books.find(book => book.id === id)], as [getBook],
    [updateBookStatus] and [updateBookProgress] each write it. *)
Definition find_by_id (books : list Book) (i : string) : option Book :=
  snd <$> list_find (fun book => id book = i) books.

Definition getBook (books : list Book) (i : string) : option Book :=
  find_by_id books i.

Definition addBook (random16 : Random) (bookData : BookFormData)
  : Action Book :=
  books ← snapshot;
  let newBook : Book :=
    with_id (Js.str_or (id bookData) (generateUUID random16)) bookData in
  let updatedBooks := books ++ [newBook] in
  setBooks updatedBooks;;
  mret newBook.

Definition updateBook (updatedBook : Book) : Action Book :=
  books ← snapshot;
  let updatedBooks :=
    (fun book => if decide (id book = id updatedBook) then updatedBook else book)
      <$> books in
  setBooks updatedBooks;;
  mret updatedBook.

(** The array that [updateBook u] hands to [setBooks],
    [books.map(book => book.id === u.id ? u : book)], named for the
    statements about it. *)
Abbreviation replaced u books :=
  ((fun book : Book => if decide (id book = id u) then u else book) <$> books).

Definition deleteBook (i : string) : Action unit :=
  books ← snapshot;
  let updatedBooks := filter (fun book => id book <> i) books in
  setBooks updatedBooks.

Definition not_found_message (i : string) : string :=
  "Book with id " ++ i ++ " not found".

(** [today] is the value of [new Date().toISOString().split('T')[0]]
    during the call: the ISO date of the current day. *)
Definition updateBookStatus (today : string) (i : string) (st : Status)
    (endDateArg : option string) : Action Book :=
  books ← snapshot;
  match find_by_id books i with
  | None => throw (not_found_message i)
  | Some bookToUpdate =>
      let b := with_status st bookToUpdate in
      let b :=
        if bool_decide (st = reading) && negb (Js.truthy (startDate bookToUpdate))
        then with_startDate today b else b in
      let b :=
        if bool_decide (st = completed)
        then with_endDate (Js.str_or endDateArg today) b else b in
      updateBook b
  end.

(** The status change nested in [updateBookProgress] works on the same
    snapshot; what it hands to [setBooks] is replaced by the final
    [updateBook]. *)
Definition updateBookProgress (today : string) (i : string) (page : Z)
  : Action Book :=
  books ← snapshot;
  match find_by_id books i with
  | None => throw (not_found_message i)
  | Some bookToUpdate =>
      (if bool_decide (status bookToUpdate <> reading)
       then updateBookStatus today i reading None;; mret tt
       else mret tt);;
      let b := with_status reading (with_currentPage page bookToUpdate) in
      let b :=
        if Js.truthy (startDate bookToUpdate) then b
        else with_startDate today b in
      let b :=
        if (page >=? Js.num_or (pageCount bookToUpdate) 0)%Z
        then with_endDate today (with_status completed b) else b in
      updateBook b
  end.

(** ** The seed collection [INITIAL_BOOKS] *)

Definition great_gatsby : Book :=
  mkBook "1" "The Great Gatsby" "F. Scott Fitzgerald"
    (Some "Classic Fiction") (Some "1925-04-10") (Some 180%Z) (Some None)
    completed None (Some "2023-01-15") (Some "2023-01-30")
    (Some "9780743273565") (Some "Scribner") (Some "English")
    (Some "A classic American novel about wealth, love, and the American Dream in the Roaring Twenties.")
    (Some 4%Z).

Definition mockingbird : Book :=
  mkBook "2" "To Kill a Mockingbird" "Harper Lee"
    (Some "Classic Fiction") (Some "1960-07-11") (Some 281%Z) (Some None)
    reading (Some 120%Z) (Some "2023-02-15") None
    (Some "9780061120084") (Some "HarperPerennial Modern Classics")
    (Some "English") None None.

Definition nineteen_eighty_four : Book :=
  mkBook "3" "1984" "George Orwell"
    (Some "Dystopian Fiction") (Some "1949-06-08") (Some 328%Z) (Some None)
    wantToRead None None None
    (Some "9780451524935") (Some "Signet Classic") (Some "English")
    None None.

Definition INITIAL_BOOKS : list Book :=
  [great_gatsby; mockingbird; nineteen_eighty_four].

(** ** Sample inputs *)

(** A form payload without id, page count or dates. *)
Definition dune_form : BookFormData :=
  mkBook None "Dune" "Herbert" None None None None wantToRead None None None
    None None None None None.

(** The same book as a stored record being read, page count unknown. *)
Definition dune : Book := with_status reading (with_id "dune" dune_form).

(** The same book with its page count filled in. *)
Definition dune_412 : Book :=
  mkBook "dune" "Dune" "Herbert" None None (Some 412%Z) None reading None
    None None None None None None None.

(** A form payload that brings its own id, the one of the first seed book. *)
Definition gatsby_again : BookFormData := with_id (Some "1") dune_form.

Definition constant_random (r : N) : Random := fun _ => r.

(** ** Loading from and saving to AsyncStorage

    The two effects of the provider.  The device is the slot under
    [STORAGE_KEY] together with whether reading and writing it reject;
    [JSON.parse], which throws on text that is not JSON and whose result
    the provider takes for a [Book[]], and [JSON.stringify] are
    parameters. *)

Record Storage : Type := mkStorage {
  slot : option string;
  read_rejects : bool;
  write_rejects : bool
}.

Definition getItem (dev : Storage) : Outcome (option string) :=
  if read_rejects dev then Rejected "getItem" else Resolved (slot dev).

Definition setItem (value : string) (dev : Storage) : Outcome unit * Storage :=
  if write_rejects dev then (Rejected "setItem", dev)
  else (Resolved tt,
        mkStorage (Some value) (read_rejects dev) (write_rejects dev)).

Record Json : Type := mkJson {
  parse : string -> Outcome (list Book);
  stringify : list Book -> string
}.

Module Provider.

(** [useState<Book[]>([])] and [useState<boolean>(true)]. *)
Record state : Type := mk { books : list Book; loading : bool }.

Definition initial : state := mk [] true.

Definition setBooks (v : list Book) (p : state) : state := mk v (loading p).

Definition setLoading (v : bool) (p : state) : state := mk (books p) v.

End Provider.

(** The [loadBooks] of the mount effect: [try], [catch] and [finally]. *)
Definition loadBooks (json : Json) (dev : Storage) (p : Provider.state)
  : Provider.state * Storage :=
  let '(p', dev') :=
    match getItem dev with
    | Resolved storedBooks =>
        if Js.truthy storedBooks then
          match parse json (default "" storedBooks) with
          | Resolved parsed => (Provider.setBooks parsed p, dev)
          | Rejected _ => (Provider.setBooks INITIAL_BOOKS p, dev)
          end
        else
          let p1 := Provider.setBooks INITIAL_BOOKS p in
          match setItem (stringify json INITIAL_BOOKS) dev with
          | (Resolved _, dev1) => (p1, dev1)
          | (Rejected _, dev1) => (Provider.setBooks INITIAL_BOOKS p1, dev1)
          end
    | Rejected _ => (Provider.setBooks INITIAL_BOOKS p, dev)
    end in
  (Provider.setLoading false p', dev').

(** The [saveBooks] of the second effect; its [catch] only logs. *)
Definition saveBooks (json : Json) (p : Provider.state) (dev : Storage)
  : Storage :=
  snd (setItem (stringify json (Provider.books p)) dev).

(** The second effect, run when [books] or [loading] has changed. *)
Definition saveEffect (json : Json) (p : Provider.state) (dev : Storage)
  : Storage :=
  if negb (Provider.loading p) then saveBooks json p dev else dev.

(** A codec for the samples: every text reads as the seed collection. *)
Definition sample_json : Json :=
  mkJson (fun _ => Resolved INITIAL_BOOKS) (fun _ => "[seed]").

(** ** The detail screen: the Update button of the progress prompt *)

Inductive Pressed : Type :=
| InvalidPage            (* Alert.alert('Invalid Page', ...) and return *)
| SetBook (updated : Book).

(** Truthiness of an optional integer-valued number. *)
Definition num_truthy (o : option Z) : bool :=
  match o with
  | Some n => negb (n =? 0)%Z
  | None => false
  end.

(** [page > o]; a comparison with [undefined] is false. *)
Definition num_gt (page : Z) (o : option Z) : bool :=
  match o with
  | Some n => (page >? n)%Z
  | None => false
  end.

(** [page] is the value of [parseInt(pageText || '0', 10)], [None] for
    [NaN]; [book] is the record the screen holds. *)
Definition handleUpdateProgress_onPress (today : string) (book : Book)
    (page : option Z) : Action Pressed :=
  match page with
  | None => mret InvalidPage
  | Some page =>
      if (page <? 1)%Z || negb (num_truthy (pageCount book))
         || num_gt page (pageCount book)
      then mret InvalidPage
      else
        updated ← updateBookProgress today (id book) page;
        mret (SetBook updated)
  end.

(** ** The add and edit form *)

Module Form.

(** [interface BookData]: every field of the form is text, but the cover
    and the status. *)
Record BookData : Type := mk {
  title : string;
  author : string;
  genre : string;
  publicationDate : string;
  isbn : string;
  pageCount : string;
  coverImage : option string;
  status : Status;
  startDate : string;
  endDate : string;
  notes : string
}.

(** The keys [validateForm] may set in [newErrors]. *)
Record Errors : Type := mkErrors {
  err_title : option string;
  err_author : option string;
  err_pageCount : option string
}.

(** [String.prototype.trim] and [isNaN(Number(s))] as parameters. *)
Record Text : Type := mkText {
  trim : string -> string;
  number_isNaN : string -> bool
}.

End Form.

Definition validateForm (text : Form.Text) (bookData : Form.BookData)
  : Form.Errors * bool :=
  let newErrors :=
    Form.mkErrors
      (if String.eqb (Form.trim text (Form.title bookData)) ""
       then Some "Title is required" else None)
      (if String.eqb (Form.trim text (Form.author bookData)) ""
       then Some "Author is required" else None)
      (if negb (String.eqb (Form.pageCount bookData) "")
          && Form.number_isNaN text (Form.pageCount bookData)
       then Some "Page count must be a number" else None) in
  (newErrors,
   match newErrors with
   | Form.mkErrors None None None => true
   | _ => false
   end).


(** [{ ...bookData, pageCount: numericPageCount }], with the id [i] it is
    given by [handleSave] (none when adding). *)
Definition bookToSave {I : Type} (i : I) (bookData : Form.BookData)
    (numericPageCount : option Z) : BookOf I :=
  mkBook i (Form.title bookData) (Form.author bookData)
    (Some (Form.genre bookData)) (Some (Form.publicationDate bookData))
    numericPageCount (Some (Form.coverImage bookData))
    (Form.status bookData) None (Some (Form.startDate bookData))
    (Some (Form.endDate bookData)) (Some (Form.isbn bookData)) None None
    (Some (Form.notes bookData)) None.

(** [handleSave], resolving to the errors it set and the alert it showed
    (title and message); [params_id] is [params.id].  [numericPageCount]
    is the value its first statement computes (see [numericPageCount_of]),
    absent or an integer: a run in which that value is [NaN] stores a
    record that the model does not hold and is not described. *)
Definition handleSave (text : Form.Text) (random16 : Random)
    (params_id : option string) (bookData : Form.BookData)
    (numericPageCount : option Z)
  : Action (Form.Errors * (string * string)) :=
  let (newErrors, valid) := validateForm text bookData in
  if valid then
    let saving : Action (string * string) :=
      if Js.truthy params_id then
        updateBook
          (bookToSave (default "" params_id) bookData numericPageCount);;
        mret ("Success", "Book updated successfully!")
      else
        addBook random16 (bookToSave None bookData numericPageCount);;
        mret ("Success", "Book added to your library!") in
    fun books pending =>
      match saving books pending with
      | (Resolved shown, pending') => (Resolved (newErrors, shown), pending')
      | (Rejected _, pending') =>
          (Resolved
             (newErrors,
              ("Error",
               "There was a problem saving your book. Please try again.")),
           pending')
      end
  else mret (newErrors,
             ("Error", "Please fill in all required fields correctly")).

(** The form as filled in for the samples: a book of 300 pages being
    read, no dates given. *)
Definition sample_form : Form.BookData :=
  Form.mk "Dune" "Herbert" "Science Fiction" "" "" "300" None reading "" ""
    "".

(** The text operations as they act on the fields of [sample_form], which
    have no blanks around them. *)
Definition sample_text : Form.Text :=
  Form.mkText (fun s => s) (fun _ => false).

(** ** Lookup by id *)

Section Lookup.

Implicit Types (books : list Book) (i : string) (b u : Book).

Lemma find_by_id_nil i : find_by_id [] i = None.
Proof. reflexivity. Qed.

Lemma find_by_id_cons b books i :
  find_by_id (b :: books) i
  = if decide (id b = i) then Some b else find_by_id books i.
Proof.
  unfold find_by_id. cbn. case_decide; [done|].
  by destruct (list_find (fun book => id book = i) books) as [[k x]|].
Qed.

Lemma find_by_id_Some books i b :
  find_by_id books i = Some b -> b ∈ books /\ id b = i.
Proof.
  induction books as [|x books IH]; [done|].
  rewrite find_by_id_cons. case_decide.
  - intros [= ->]. split; [left|done].
  - intros H1. destruct (IH H1). split; [by right|done].
Qed.

Lemma find_by_id_None books i :
  find_by_id books i = None <-> (forall b, b ∈ books -> id b <> i).
Proof.
  induction books as [|x books IH].
  - split; [|done]. intros _ b Hb. by apply elem_of_nil in Hb.
  - rewrite find_by_id_cons. case_decide as Hx.
    + split; [done|]. intros H1. destruct (H1 x); [left|done].
    + rewrite IH. split.
      * intros H1 b [->|Hb]%elem_of_cons; auto.
      * intros H1 b Hb. apply H1. by right.
Qed.

Lemma find_by_id_is_Some books i b :
  b ∈ books -> id b = i -> is_Some (find_by_id books i).
Proof.
  intros Hb Hi. destruct (find_by_id books i) eqn:E; [eauto|].
  rewrite find_by_id_None in E. by destruct (E b Hb).
Qed.

Lemma find_by_id_not_elem books i :
  find_by_id books i = None <-> i ∉ id <$> books.
Proof.
  rewrite find_by_id_None, list_elem_of_fmap. split.
  - intros H1 (b & -> & Hb). by apply (H1 b).
  - intros H1 b Hb Hi. apply H1. exists b. by split.
Qed.

End Lookup.

(** ** The array built by [updateBook] *)

Section Replace.

Implicit Types (books : list Book) (i : string) (b u : Book).

Lemma replaced_ids u books : id <$> replaced u books = id <$> books.
Proof.
  induction books as [|x books IH]; [done|].
  cbn [fmap list_fmap] in *. f_equal; [|exact IH]. by case_decide.
Qed.

Lemma replaced_length u books : length (replaced u books) = length books.
Proof. apply length_fmap. Qed.

Lemma replaced_lookup u books k b :
  books !! k = Some b ->
  replaced u books !! k = Some (if decide (id b = id u) then u else b).
Proof. intros H1. by rewrite list_lookup_fmap, H1. Qed.

Lemma replaced_absent u books :
  (forall b, b ∈ books -> id b <> id u) -> replaced u books = books.
Proof.
  induction books as [|x books IH]; [done|]. intros H1.
  cbn [fmap list_fmap]. rewrite decide_False by (apply H1; left).
  f_equal. apply IH. intros b Hb. apply H1. by right.
Qed.

Lemma replaced_find u books :
  is_Some (find_by_id books (id u)) ->
  find_by_id (replaced u books) (id u) = Some u.
Proof.
  induction books as [|x books IH]; [by intros [? ?]|].
  cbn [fmap list_fmap]. rewrite !find_by_id_cons.
  destruct (decide (id x = id u)) as [Hx|Hx].
  - by rewrite decide_True.
  - by rewrite decide_False.
Qed.

Lemma replaced_getBook u books i :
  id u = i -> is_Some (getBook books i) ->
  getBook (replaced u books) i = Some u.
Proof. intros <-. apply replaced_find. Qed.

Lemma replaced_unique u books k b :
  NoDup (id <$> books) -> books !! k = Some b -> id b = id u ->
  replaced u books = <[k := u]> books.
Proof.
  intros Hnd Hk Hb. apply list_eq. intros j.
  destruct (decide (j = k)) as [->|Hjk].
  - rewrite list_lookup_insert_eq by (by eapply lookup_lt_Some).
    by rewrite (replaced_lookup _ _ _ _ Hk), decide_True.
  - rewrite list_lookup_insert_ne by done.
    destruct (books !! j) as [x|] eqn:Hj.
    + rewrite (replaced_lookup _ _ _ _ Hj), decide_False; [done|].
      intros Hx. apply Hjk.
      apply (NoDup_lookup (id <$> books) j k (id u)); [done| |].
      * by rewrite list_lookup_fmap, Hj; cbn; rewrite Hx.
      * by rewrite list_lookup_fmap, Hk; cbn; rewrite Hb.
    + by rewrite list_lookup_fmap, Hj.
Qed.

(** *** What each closure does to the collection *)

Lemma run_updateBook u books :
  run books (updateBook u) = (Resolved u, replaced u books).
Proof. reflexivity. Qed.

Lemma run_addBook random16 (bookData : BookFormData) books :
  run books (addBook random16 bookData)
  = (Resolved (with_id (Js.str_or (id bookData) (generateUUID random16)) bookData),
     books ++ [with_id (Js.str_or (id bookData) (generateUUID random16)) bookData]).
Proof. reflexivity. Qed.

Lemma run_deleteBook i books :
  run books (deleteBook i)
  = (Resolved tt, filter (fun book : Book => id book <> i) books).
Proof. reflexivity. Qed.

Lemma run_updateBookStatus_absent today i st e books :
  find_by_id books i = None ->
  run books (updateBookStatus today i st e)
  = (Rejected (not_found_message i), books).
Proof.
  intros H1. unfold run, updateBookStatus, mbind, Action_bind, snapshot.
  by rewrite H1.
Qed.

Lemma run_updateBookProgress_absent today i page books :
  find_by_id books i = None ->
  run books (updateBookProgress today i page)
  = (Rejected (not_found_message i), books).
Proof.
  intros H1. unfold run, updateBookProgress, mbind, Action_bind, snapshot.
  by rewrite H1.
Qed.

(** The record written by [updateBookStatus]: the fields it derives. *)
Lemma run_updateBookStatus_found today i st e books b :
  find_by_id books i = Some b ->
  exists u,
    run books (updateBookStatus today i st e) = (Resolved u, replaced u books)
    /\ id u = id b
    /\ status u = st
    /\ startDate u
       = (if bool_decide (st = reading) && negb (Js.truthy (startDate b))
          then Some today else startDate b)
    /\ endDate u
       = (if bool_decide (st = completed)
          then Some (Js.str_or e today) else endDate b).
Proof.
  intros H1. unfold run, updateBookStatus, mbind, Action_bind, snapshot.
  rewrite H1. eexists. split; [reflexivity|].
  repeat case_match; done.
Qed.

(** The record written by [updateBookProgress]: the nested status call
    writes an array that the final [setBooks] replaces. *)
Lemma run_updateBookProgress_found today i page books b :
  find_by_id books i = Some b ->
  exists u,
    run books (updateBookProgress today i page)
    = (Resolved u, replaced u books)
    /\ id u = id b
    /\ currentPage u = Some page
    /\ pageCount u = pageCount b
    /\ status u
       = (if (page >=? Js.num_or (pageCount b) 0)%Z
          then completed else reading)
    /\ startDate u
       = (if Js.truthy (startDate b) then startDate b else Some today)
    /\ endDate u
       = (if (page >=? Js.num_or (pageCount b) 0)%Z
          then Some today else endDate b).
Proof.
  intros H1.
  unfold run, updateBookProgress, updateBookStatus, mbind, Action_bind,
    snapshot.
  cbv beta. rewrite H1.
  destruct (bool_decide (status b <> reading));
    cbv beta; rewrite ?H1;
    (eexists; split; [reflexivity|]; repeat case_match; done).
Qed.

End Replace.

(** ** Status transitions *)

Section StatusTransitions.

Implicit Types (books : list Book) (i today : string) (b u : Book).

(** C1, counterexample.  The first seed book has [endDate] 2023-01-30;
    marking it completed again without an explicit end date replaces that
    date by the current day. *)
Lemma updateBookStatus_completed_overwrites_endDate :
  exists b u books',
    getBook INITIAL_BOOKS "1" = Some b
    /\ endDate b = Some "2023-01-30"
    /\ run INITIAL_BOOKS (updateBookStatus "2024-05-05" "1" completed None)
       = (Resolved u, books')
    /\ getBook books' "1" = Some u
    /\ endDate u = Some "2024-05-05"
    /\ endDate u <> endDate b.
Proof. do 3 eexists. repeat split; try reflexivity. discriminate. Qed.

(** C1, amended.  For every record present in the collection,
    [updateBookStatus id 'completed'] without an explicit end date
    resolves to a completed record whose [endDate] is the current day,
    whether or not [endDate] was set before, and that record is the one
    stored under the id. *)
Theorem updateBookStatus_completed_endDate_today books i b today :
  getBook books i = Some b ->
  exists u books',
    run books (updateBookStatus today i completed None) = (Resolved u, books')
    /\ status u = completed
    /\ endDate u = Some today
    /\ getBook books' i = Some u.
Proof.
  intros Hb.
  destruct (run_updateBookStatus_found today i completed None books b Hb)
    as (u & Hrun & Hid & Hst & _ & Hend).
  exists u. eexists. split; [exact Hrun|]. repeat split; [done|done|].
  destruct (find_by_id_Some _ _ _ Hb) as [_ Hi].
  apply replaced_getBook; [congruence|by rewrite Hb].
Qed.

(** C1 at the first seed book, completed again on 2024-05-05. *)
Lemma updateBookStatus_completed_endDate_today_witness :
  getBook INITIAL_BOOKS "1" = Some great_gatsby
  /\ exists u books',
    run INITIAL_BOOKS (updateBookStatus "2024-05-05" "1" completed None)
    = (Resolved u, books')
    /\ status u = completed
    /\ endDate u = Some "2024-05-05"
    /\ getBook books' "1" = Some u.
Proof.
  split; [reflexivity|].
  apply (updateBookStatus_completed_endDate_today
           INITIAL_BOOKS "1" great_gatsby "2024-05-05").
  reflexivity.
Defined.

(** C3.  When the record's [startDate] is unset (absent, or the empty
    string a form leaves behind), [updateBookStatus id 'reading'] sets it
    to the current day (a non-empty ISO date); calling it again on the
    resulting collection, on whatever later day, leaves that [startDate]
    in place. *)
Theorem updateBookStatus_reading_startDate books i b today later e1 e2 :
  today <> "" ->
  getBook books i = Some b ->
  startDate b = None \/ startDate b = Some "" ->
  exists u books',
    run books (updateBookStatus today i reading e1) = (Resolved u, books')
    /\ status u = reading
    /\ startDate u = Some today
    /\ getBook books' i = Some u
    /\ exists u' books'',
         run books' (updateBookStatus later i reading e2)
         = (Resolved u', books'')
         /\ status u' = reading
         /\ startDate u' = Some today
         /\ getBook books'' i = Some u'.
Proof.
  intros Hday Hb Hstart.
  destruct (find_by_id_Some _ _ _ Hb) as [_ Hi].
  destruct (run_updateBookStatus_found today i reading e1 books b Hb)
    as (u & Hrun & Hid & Hst & Hsd & _).
  assert (Hunset : Js.truthy (startDate b) = false)
    by (destruct Hstart as [-> | ->]; reflexivity).
  rewrite Hunset, bool_decide_eq_true_2 in Hsd by done. cbn in Hsd.
  assert (Hu : getBook
                 ((fun book : Book =>
                     if decide (id book = id u) then u else book) <$> books)
                 i = Some u).
  { apply replaced_getBook; [congruence|by rewrite Hb]. }
  exists u. eexists. split; [exact Hrun|]. repeat split; [done|done|done|].
  destruct (run_updateBookStatus_found later i reading e2 _ u Hu)
    as (u' & Hrun' & Hid' & Hst' & Hsd' & _).
  rewrite Hsd, bool_decide_eq_true_2 in Hsd' by done.
  unfold Js.truthy in Hsd'.
  apply String.eqb_neq in Hday. rewrite Hday in Hsd'. cbn in Hsd'.
  exists u'. eexists. split; [exact Hrun'|]. repeat split; [done|done|].
  apply replaced_getBook; [congruence|by rewrite Hu].
Qed.

(** C3 at the third seed book, which has no [startDate]: marked as being
    read on 2024-05-05 and again on 2024-06-01. *)
Lemma updateBookStatus_reading_startDate_witness :
  "2024-05-05" <> ""
  /\ getBook INITIAL_BOOKS "3" = Some nineteen_eighty_four
  /\ (startDate nineteen_eighty_four = None
      \/ startDate nineteen_eighty_four = Some "")
  /\ exists u books',
    run INITIAL_BOOKS (updateBookStatus "2024-05-05" "3" reading None)
    = (Resolved u, books')
    /\ status u = reading
    /\ startDate u = Some "2024-05-05"
    /\ getBook books' "3" = Some u
    /\ exists u' books'',
         run books' (updateBookStatus "2024-06-01" "3" reading None)
         = (Resolved u', books'')
         /\ status u' = reading
         /\ startDate u' = Some "2024-05-05"
         /\ getBook books'' "3" = Some u'.
Proof.
  split; [discriminate|]. split; [reflexivity|]. split; [left; reflexivity|].
  apply (updateBookStatus_reading_startDate
           INITIAL_BOOKS "3" nineteen_eighty_four
           "2024-05-05" "2024-06-01" None None);
    [discriminate|reflexivity|left; reflexivity].
Defined.

(** C4.  For an id that no record of the collection carries,
    [updateBookStatus] and [updateBookProgress] reject with the not-found
    error instead of resolving to a record, never call [setBooks], and
    the collection of the next render is the one they started from. *)
Theorem update_status_progress_not_found books i today st e page :
  (forall b, b ∈ books -> id b <> i) ->
  run books (updateBookStatus today i st e)
  = (Rejected (not_found_message i), books)
  /\ run books (updateBookProgress today i page)
     = (Rejected (not_found_message i), books)
  /\ snd (updateBookStatus today i st e books None) = None
  /\ snd (updateBookProgress today i page books None) = None.
Proof.
  intros Habs. apply find_by_id_None in Habs.
  split; [by apply run_updateBookStatus_absent|].
  split; [by apply run_updateBookProgress_absent|].
  unfold updateBookStatus, updateBookProgress, mbind, Action_bind, snapshot.
  by rewrite Habs.
Qed.

(** C4 at the seed collection and the id 42, which no seed book has. *)
Lemma update_status_progress_not_found_witness :
  (forall b, b ∈ INITIAL_BOOKS -> id b <> "42")
  /\ run INITIAL_BOOKS (updateBookStatus "2024-05-05" "42" completed None)
     = (Rejected "Book with id 42 not found", INITIAL_BOOKS)
  /\ run INITIAL_BOOKS (updateBookProgress "2024-05-05" "42" 7)
     = (Rejected "Book with id 42 not found", INITIAL_BOOKS).
Proof.
  assert (Habs : forall b : Book, b ∈ INITIAL_BOOKS -> id b <> "42").
  { apply find_by_id_None. reflexivity. }
  split; [exact Habs|].
  destruct (update_status_progress_not_found
              INITIAL_BOOKS "42" "2024-05-05" completed None 7 Habs)
    as (H1 & H2 & _).
  split; [exact H1|exact H2].
Defined.

End StatusTransitions.

(** ** Progress reconciliation *)

Section Progress.

Implicit Types (books : list Book) (i today : string) (b u : Book).

Lemma num_or_zero (o : option Z) : Js.num_or o 0 = default 0%Z o.
Proof.
  destruct o as [n|]; [|done]. cbn.
  destruct (Z.eqb_spec n 0) as [->|]; done.
Qed.

(** X7.  With a known page count the comparison of [updateBookProgress]
    is the one against that count: the record is completed, with the
    current day as [endDate], exactly when the page reaches the count;
    below it the record is being read and its [endDate] is the old one. *)
Lemma updateBookProgress_known_pageCount books i b today page n :
  getBook books i = Some b ->
  pageCount b = Some n ->
  exists u books',
    run books (updateBookProgress today i page) = (Resolved u, books')
    /\ (status u = completed /\ endDate u = Some today <-> (n <= page)%Z)
    /\ ((page < n)%Z -> status u = reading /\ endDate u = endDate b).
Proof.
  intros Hb Hn.
  destruct (run_updateBookProgress_found today i page books b Hb)
    as (u & Hrun & _ & _ & _ & Hst & _ & Hend).
  rewrite num_or_zero, Hn in Hst, Hend. cbn in Hst, Hend.
  exists u. eexists. split; [exact Hrun|].
  destruct (Z.geb_spec page n) as [Hge|Hlt].
  - split; [split; [lia|done]|lia].
  - split; [|done]. split; [|lia]. intros [Hc _]. congruence.
Qed.

(** C2, the code at the failing input.  [dune] has no page count; a
    progress update to page 5 nevertheless resolves to a completed
    record whose [endDate] is the current day, and stores it. *)
Theorem updateBookProgress_unknown_pageCount_completes :
  pageCount dune = None
  /\ exists u books',
    run [dune] (updateBookProgress "2024-05-05" "dune" 5)
    = (Resolved u, books')
    /\ status u = completed
    /\ endDate u = Some "2024-05-05"
    /\ getBook books' "dune" = Some u.
Proof.
  split; [reflexivity|]. do 2 eexists.
  split; [vm_compute; reflexivity|]. split; [reflexivity|].
  split; vm_compute; reflexivity.
Qed.

(** The same for every record without page count and every page from 0
    on. *)
Lemma unknown_pageCount_always_completes books i b today page :
  getBook books i = Some b ->
  pageCount b = None ->
  (0 <= page)%Z ->
  exists u books',
    run books (updateBookProgress today i page) = (Resolved u, books')
    /\ status u = completed
    /\ endDate u = Some today.
Proof.
  intros Hb Hn Hp.
  destruct (run_updateBookProgress_found today i page books b Hb)
    as (u & Hrun & _ & _ & _ & Hst & _ & Hend).
  rewrite Hn in Hst, Hend. cbn in Hst, Hend.
  destruct (Z.geb_spec page 0) as [_|]; [|lia].
  exists u. eexists. by split.
Qed.

(** C9, counterexample.  A progress update past the last page stores
    the page as given: the record kept in the collection has
    [currentPage] 500 and [pageCount] 412. *)
Lemma updateBookProgress_currentPage_exceeds_pageCount :
  exists u books',
    run [dune_412] (updateBookProgress "2024-05-05" "dune" 500)
    = (Resolved u, books')
    /\ u ∈ books'
    /\ currentPage u = Some 500%Z
    /\ pageCount u = Some 412%Z
    /\ ~ (500 <= 412)%Z.
Proof.
  do 2 eexists. split; [reflexivity|]. split; [left|].
  split; [reflexivity|]. split; [reflexivity|lia].
Qed.

(** C9, amended.  After [updateBookProgress id page] the record stored
    under the id carries [page] as its [currentPage], unclamped, and an
    unchanged [pageCount]; when [pageCount] is present, a page reaching
    or exceeding it forces status [completed], so that a record which
    is not completed has [currentPage] below [pageCount]. *)
Theorem updateBookProgress_reconciles books i b today page :
  getBook books i = Some b ->
  exists u books',
    run books (updateBookProgress today i page) = (Resolved u, books')
    /\ getBook books' i = Some u
    /\ currentPage u = Some page
    /\ pageCount u = pageCount b
    /\ forall n, pageCount u = Some n ->
         ((n <= page)%Z -> status u = completed)
         /\ (status u <> completed -> (page < n)%Z).
Proof.
  intros Hb.
  destruct (find_by_id_Some _ _ _ Hb) as [_ Hi].
  destruct (run_updateBookProgress_found today i page books b Hb)
    as (u & Hrun & Hid & Hcp & Hpc & Hst & _ & _).
  exists u. eexists. split; [exact Hrun|].
  split; [apply replaced_getBook; [congruence|by rewrite Hb]|].
  split; [done|]. split; [done|].
  intros n Hn. rewrite Hpc in Hn.
  rewrite num_or_zero, Hn in Hst. cbn in Hst.
  destruct (Z.geb_spec page n) as [Hge|Hlt].
  - split; [done|]. intros Hc. by destruct Hc.
  - split; [lia|done].
Qed.

(** C9 at the second seed book (281 pages) and page 200. *)
Lemma updateBookProgress_reconciles_witness :
  getBook INITIAL_BOOKS "2" = Some mockingbird
  /\ exists u books',
    run INITIAL_BOOKS (updateBookProgress "2024-05-05" "2" 200)
    = (Resolved u, books')
    /\ getBook books' "2" = Some u
    /\ currentPage u = Some 200%Z
    /\ pageCount u = pageCount mockingbird
    /\ forall n, pageCount u = Some n ->
         ((n <= 200)%Z -> status u = completed)
         /\ (status u <> completed -> (200 < n)%Z).
Proof.
  split; [reflexivity|].
  apply (updateBookProgress_reconciles
           INITIAL_BOOKS "2" mockingbird "2024-05-05" 200).
  reflexivity.
Defined.

End Progress.

(** ** generateUUID yields a populated id *)

Section Uuid.

Lemma append_populated_r (s t : string) : t <> "" -> (s ++ t)%string <> "".
Proof. destruct s; [done|discriminate]. Qed.

(** A template character other than [x] and [y] survives the
    replacement, whatever is drawn. *)
Lemma replace_xy_populated random16 k s :
  has_literal s = true -> replace_xy random16 k s <> "".
Proof.
  revert k. induction s as [|c rest IH]; intros k; [done|].
  cbn [has_literal replace_xy].
  destruct (Ascii.eqb c "x" || Ascii.eqb c "y"); cbn [negb orb].
  - intros Hrest. apply append_populated_r. by apply IH.
  - discriminate.
Qed.

Lemma generateUUID_populated random16 : generateUUID random16 <> "".
Proof. by apply replace_xy_populated. Qed.

Lemma str_or_populated (o : option string) (d : string) :
  d <> "" -> Js.str_or o d <> "".
Proof.
  intros Hd. destruct o as [s|]; [|done]. cbn.
  by destruct (String.eqb_spec s "").
Qed.

End Uuid.

(** ** The collection as a sequence *)

Section Collection.

Implicit Types (books : list Book) (i : string) (b u book : Book).
Implicit Types (bookData : BookFormData) (random : Random).

Lemma find_by_id_app books1 books2 i :
  find_by_id (books1 ++ books2) i
  = match find_by_id books1 i with
    | Some b => Some b
    | None => find_by_id books2 i
    end.
Proof.
  induction books1 as [|x books1 IH]; [reflexivity|].
  cbn [app]. rewrite !find_by_id_cons. by case_decide.
Qed.

Lemma filter_other_ids_absent books i :
  (forall b, b ∈ books -> id b <> i) ->
  filter (fun book : Book => id book <> i) books = books.
Proof.
  induction books as [|x books IH]; [done|]. intros Habs.
  rewrite filter_cons_True by (apply Habs; left).
  f_equal. apply IH. intros b Hb. apply Habs. by right.
Qed.

Lemma filter_other_ids_unique books i b :
  NoDup (id <$> books) -> b ∈ books -> id b = i ->
  length (filter (fun book : Book => id book <> i) books) + 1
  = length books.
Proof.
  induction books as [|x books IH]; intros Hnd Hb Hi.
  - by apply elem_of_nil in Hb.
  - cbn [fmap list_fmap] in Hnd. apply NoDup_cons in Hnd as [Hx Hnd].
    destruct (decide (id x = i)) as [Hxi|Hxi].
    + rewrite filter_cons_False by (intros Hne; by apply Hne).
      rewrite filter_other_ids_absent; [cbn; lia|].
      intros y Hy Hyi. apply Hx, list_elem_of_fmap. exists y.
      split; [congruence|done].
    + rewrite filter_cons_True by done. cbn [length].
      apply elem_of_cons in Hb as [->|Hb]; [done|].
      specialize (IH Hnd Hb Hi). lia.
Qed.

(** C5.  When no record of the collection carries the id of [book],
    [updateBook book] resolves (to [book], no error) and the collection
    of the next render is the one it started from. *)
Theorem updateBook_absent_is_noop books book :
  (forall b, b ∈ books -> id b <> id book) ->
  run books (updateBook book) = (Resolved book, books).
Proof.
  intros Habs. rewrite run_updateBook. by rewrite replaced_absent.
Qed.

(** C5 at the seed collection and a record whose id no seed book has. *)
Lemma updateBook_absent_is_noop_witness :
  (forall b, b ∈ INITIAL_BOOKS -> id b <> id dune)
  /\ run INITIAL_BOOKS (updateBook dune) = (Resolved dune, INITIAL_BOOKS).
Proof.
  assert (Habs : forall b : Book, b ∈ INITIAL_BOOKS -> id b <> id dune).
  { apply find_by_id_None. reflexivity. }
  split; [exact Habs|].
  exact (updateBook_absent_is_noop INITIAL_BOOKS dune Habs).
Defined.

(** C6, counterexample.  After a book was added under the id of the
    first seed book, the collection has four records, two of them with
    id 1; deleting id 1 removes both. *)
Lemma deleteBook_removes_every_match :
  exists books1 books2,
    snd (run INITIAL_BOOKS (addBook (constant_random 7) gatsby_again))
    = books1
    /\ is_Some (getBook books1 "1")
    /\ run books1 (deleteBook "1") = (Resolved tt, books2)
    /\ length books1 = 4
    /\ length books2 = 2
    /\ length books2 + 1 <> length books1.
Proof.
  do 2 eexists. split; [reflexivity|]. split; [by eexists|].
  split; [reflexivity|]. split; [reflexivity|]. split; [reflexivity|].
  vm_compute. discriminate.
Qed.

(** C6, amended.  For an id that has a matching record, [deleteBook id]
    followed by [getBook id] returns absent and the collection gets
    shorter: by exactly one record when the ids of the collection are
    pairwise distinct (every record carrying the id is removed). *)
Theorem deleteBook_then_getBook books i :
  is_Some (getBook books i) ->
  exists books',
    run books (deleteBook i) = (Resolved tt, books')
    /\ getBook books' i = None
    /\ length books' < length books
    /\ (NoDup (id <$> books) -> length books' + 1 = length books).
Proof.
  intros [b Hb]. destruct (find_by_id_Some _ _ _ Hb) as [Hin Hi].
  eexists. split; [apply run_deleteBook|]. split; [|split].
  - apply find_by_id_None. intros x Hx. by apply list_elem_of_filter in Hx as [? _].
  - apply (length_filter_lt _ _ b); [done|]. intros Hne. by apply Hne.
  - intros Hnd. by apply (filter_other_ids_unique books i b).
Qed.

(** C6 at the seed collection, whose ids are pairwise distinct, and the
    id of the second seed book. *)
Lemma deleteBook_then_getBook_witness :
  is_Some (getBook INITIAL_BOOKS "2")
  /\ NoDup (id <$> INITIAL_BOOKS)
  /\ run INITIAL_BOOKS (deleteBook "2")
     = (Resolved tt, [great_gatsby; nineteen_eighty_four])
  /\ getBook [great_gatsby; nineteen_eighty_four] "2" = None
  /\ length [great_gatsby; nineteen_eighty_four] + 1 = length INITIAL_BOOKS.
Proof.
  assert (Hsome : is_Some (getBook INITIAL_BOOKS "2")) by (by eexists).
  assert (Hnd : NoDup (id <$> INITIAL_BOOKS)).
  { apply (bool_decide_unpack _). reflexivity. }
  split; [exact Hsome|]. split; [exact Hnd|].
  destruct (deleteBook_then_getBook INITIAL_BOOKS "2" Hsome)
    as (books' & Hrun & Hget & _ & Hlen).
  injection Hrun as <-.
  split; [reflexivity|]. split; [exact Hget|exact (Hlen Hnd)].
Defined.

End Collection.

(** ** Adding, and the uniqueness of ids *)

Section Adding.

Implicit Types (books : list Book) (i : string) (b u book : Book).
Implicit Types (bookData : BookFormData) (random : Random).

(** C7, counterexample.  A payload that brings the id of the first seed
    book is stored under that id, behind the seed book: [getBook] on the
    id of the returned record finds the seed book, not what was added. *)
Lemma addBook_supplied_id_is_shadowed :
  exists u books',
    run INITIAL_BOOKS (addBook (constant_random 7) gatsby_again)
    = (Resolved u, books')
    /\ id u = "1"
    /\ getBook books' (id u) = Some great_gatsby
    /\ getBook books' (id u) <> Some u.
Proof.
  do 2 eexists. split; [reflexivity|]. split; [reflexivity|].
  split; [reflexivity|]. discriminate.
Qed.

(** C7, amended.  For every payload, the record returned by [addBook] is
    the payload with a populated id (the supplied one if non-empty, a
    generated one otherwise) and it is in the collection afterwards;
    [getBook] on that id returns that very record provided no record of
    the collection carried the id before. *)
Theorem addBook_then_getBook random bookData books :
  exists u books',
    run books (addBook random bookData) = (Resolved u, books')
    /\ id u = Js.str_or (id bookData) (generateUUID random)
    /\ id u <> ""
    /\ u = with_id (id u) bookData
    /\ u ∈ books'
    /\ ((forall b, b ∈ books -> id b <> id u) ->
        getBook books' (id u) = Some u).
Proof.
  do 2 eexists. split; [apply run_addBook|]. cbn [id with_id].
  split; [reflexivity|].
  split; [apply str_or_populated, generateUUID_populated|].
  split; [reflexivity|].
  split; [apply elem_of_app; right; left|].
  intros Hfresh. apply find_by_id_None in Hfresh.
  unfold getBook. rewrite find_by_id_app, Hfresh, find_by_id_cons.
  by rewrite decide_True.
Qed.

(** C7 at the seed collection and a payload without id, every draw of
    the generator being 7. *)
Lemma addBook_then_getBook_witness :
  (forall b, b ∈ INITIAL_BOOKS ->
     id b <> "77777777-7777-4777-b777-777777777777")
  /\ exists u books',
    run INITIAL_BOOKS (addBook (constant_random 7) dune_form)
    = (Resolved u, books')
    /\ id u = "77777777-7777-4777-b777-777777777777"
    /\ u = with_id (id u) dune_form
    /\ getBook books' (id u) = Some u.
Proof.
  assert (Hfresh : forall b : Book, b ∈ INITIAL_BOOKS ->
            id b <> "77777777-7777-4777-b777-777777777777").
  { apply find_by_id_None. vm_compute. reflexivity. }
  split; [exact Hfresh|].
  destruct (addBook_then_getBook (constant_random 7) dune_form INITIAL_BOOKS)
    as (u & books' & Hrun & Hid & _ & Hu & _ & Hget).
  assert (Hlit : Js.str_or (id dune_form) (generateUUID (constant_random 7))
                 = "77777777-7777-4777-b777-777777777777")
    by (vm_compute; reflexivity).
  rewrite Hlit in Hid.
  exists u, books'. split; [exact Hrun|]. split; [exact Hid|].
  split; [exact Hu|]. apply Hget. rewrite Hid. exact Hfresh.
Defined.

(** C8, counterexample.  The seed collection has pairwise distinct ids;
    adding a payload that brings the id of the first seed book yields a
    collection in which that id occurs twice. *)
Lemma addBook_supplied_id_breaks_uniqueness :
  NoDup (id <$> INITIAL_BOOKS)
  /\ ~ NoDup
       (id <$> snd (run INITIAL_BOOKS
                      (addBook (constant_random 7) gatsby_again))).
Proof.
  split.
  - apply (bool_decide_unpack _). reflexivity.
  - intros Hnd. apply (bool_decide_pack _) in Hnd. vm_compute in Hnd.
    exact Hnd.
Qed.

(** C8, amended.  From a collection whose ids are pairwise distinct,
    [updateBook], [deleteBook], [updateBookStatus] and
    [updateBookProgress] yield a collection whose ids are still pairwise
    distinct, for every input; [addBook] does so exactly when the id it
    assigns (the supplied one if non-empty, the generated one otherwise)
    is carried by no record of the collection. *)
Theorem store_operations_and_unique_ids
    books book i today st e page (random16 : Random) bookData :
  NoDup (id <$> books) ->
  NoDup (id <$> snd (run books (updateBook book)))
  /\ NoDup (id <$> snd (run books (deleteBook i)))
  /\ NoDup (id <$> snd (run books (updateBookStatus today i st e)))
  /\ NoDup (id <$> snd (run books (updateBookProgress today i page)))
  /\ (NoDup (id <$> snd (run books (addBook random16 bookData)))
      <-> Js.str_or (id bookData) (generateUUID random16) ∉ id <$> books).
Proof.
  intros Hnd. split; [|split; [|split; [|split]]].
  - rewrite run_updateBook. cbn [snd]. by rewrite replaced_ids.
  - rewrite run_deleteBook. cbn [snd].
    eapply sublist_NoDup; [exact Hnd|].
    apply fmap_sublist, sublist_filter.
  - destruct (find_by_id books i) as [b|] eqn:Hb.
    + destruct (run_updateBookStatus_found today i st e books b Hb)
        as (u & -> & _). cbn [snd]. by rewrite replaced_ids.
    + by rewrite run_updateBookStatus_absent.
  - destruct (find_by_id books i) as [b|] eqn:Hb.
    + destruct (run_updateBookProgress_found today i page books b Hb)
        as (u & -> & _). cbn [snd]. by rewrite replaced_ids.
    + by rewrite run_updateBookProgress_absent.
  - rewrite run_addBook. cbn [snd]. rewrite fmap_app. cbn [fmap list_fmap id with_id].
    rewrite NoDup_app. split.
    + intros (_ & Hdisj & _) Hin. apply (Hdisj _ Hin). left.
    + intros Hfresh. split; [done|]. split.
      * intros x Hx Hx'. apply list_elem_of_singleton in Hx' as ->. done.
      * apply NoDup_singleton.
Qed.

(** C8 at the seed collection. *)
Lemma store_operations_and_unique_ids_witness :
  NoDup (id <$> INITIAL_BOOKS)
  /\ NoDup (id <$> snd (run INITIAL_BOOKS (updateBook dune_412)))
  /\ NoDup (id <$> snd (run INITIAL_BOOKS (deleteBook "2")))
  /\ NoDup (id <$> snd (run INITIAL_BOOKS
               (updateBookStatus "2024-05-05" "3" reading None)))
  /\ NoDup (id <$> snd (run INITIAL_BOOKS
               (updateBookProgress "2024-05-05" "2" 281)))
  /\ (NoDup (id <$> snd (run INITIAL_BOOKS
                (addBook (constant_random 7) dune_form)))
      <-> Js.str_or (id dune_form) (generateUUID (constant_random 7))
            ∉ id <$> INITIAL_BOOKS).
Proof.
  assert (Hnd : NoDup (id <$> INITIAL_BOOKS)).
  { apply (bool_decide_unpack _). reflexivity. }
  split; [exact Hnd|].
  exact (store_operations_and_unique_ids INITIAL_BOOKS dune_412 "2"
           "2024-05-05" reading None 281 (constant_random 7) dune_form Hnd).
Defined.

(** C10, counterexample.  After a book was added under the id of the
    first seed book, the records at the positions 0 and 3 both carry the
    id 1; [updateBook] with a record of that id replaces both, not the
    record at one position only. *)
Lemma updateBook_changes_every_match :
  exists books books',
    snd (run INITIAL_BOOKS (addBook (constant_random 7) gatsby_again))
    = books
    /\ id <$> books = ["1"; "2"; "3"; "1"]
    /\ run books (updateBook (with_id "1" dune))
       = (Resolved (with_id "1" dune), books')
    /\ books' !! 0 = Some (with_id "1" dune)
    /\ books' !! 3 = Some (with_id "1" dune)
    /\ books !! 0 <> books' !! 0
    /\ books !! 3 <> books' !! 3.
Proof.
  do 2 eexists. split; [reflexivity|]. split; [reflexivity|].
  split; [reflexivity|]. split; [reflexivity|]. split; [reflexivity|].
  split; discriminate.
Qed.

(** C10, amended.  [addBook] appends exactly one record, the returned
    one, at the end of the sequence, every earlier record staying in
    place.  [updateBook] keeps the length of the sequence and stores
    [book] at every position whose record carries the id of [book], every
    record with another id staying unchanged at its position; when the
    ids of the collection are pairwise distinct that is the one matching
    position, and the new sequence is the old one with that position
    assigned. *)
Theorem addBook_updateBook_frame (random16 : Random) bookData book books :
  (exists newBook,
     run books (addBook random16 bookData)
     = (Resolved newBook, books ++ [newBook]))
  /\ (exists books',
        run books (updateBook book) = (Resolved book, books')
        /\ length books' = length books
        /\ (forall k b, books !! k = Some b ->
              books' !! k
              = Some (if decide (id b = id book) then book else b))
        /\ (NoDup (id <$> books) ->
            forall k b, books !! k = Some b -> id b = id book ->
              books' = <[k := book]> books)).
Proof.
  split.
  - eexists. apply run_addBook.
  - eexists. split; [apply run_updateBook|].
    split; [apply replaced_length|]. split.
    + intros k b. apply replaced_lookup.
    + intros Hnd k b Hk Hb. by apply (replaced_unique book books k b).
Qed.

(** C10 at the seed collection, whose ids are pairwise distinct: an
    update of the second seed book assigns position 1. *)
Lemma addBook_updateBook_frame_witness :
  NoDup (id <$> INITIAL_BOOKS)
  /\ INITIAL_BOOKS !! 1 = Some mockingbird
  /\ id mockingbird = id (with_id "2" dune)
  /\ run INITIAL_BOOKS (updateBook (with_id "2" dune))
     = (Resolved (with_id "2" dune),
        [great_gatsby; with_id "2" dune; nineteen_eighty_four]).
Proof.
  assert (Hnd : NoDup (id <$> INITIAL_BOOKS)).
  { apply (bool_decide_unpack _). reflexivity. }
  split; [exact Hnd|]. split; [reflexivity|]. split; [reflexivity|].
  destruct (addBook_updateBook_frame (constant_random 7) dune_form
              (with_id "2" dune) INITIAL_BOOKS)
    as (_ & books' & Hrun & _ & _ & Hone).
  rewrite Hrun. f_equal.
  exact (Hone Hnd 1 mockingbird eq_refl eq_refl).
Defined.

(** With pairwise distinct ids, the update is an assignment at the one
    position that matches. *)
Lemma updateBook_unique_position books book k b :
  NoDup (id <$> books) -> books !! k = Some b -> id b = id book ->
  run books (updateBook book) = (Resolved book, <[k := book]> books).
Proof.
  intros Hnd Hk Hb. rewrite run_updateBook.
  by rewrite (replaced_unique book books k b).
Qed.

End Adding.


(** ** More on the status transitions *)

Section StatusFrame.

Implicit Types (books : list Book) (i today : string) (b u : Book).

(** X1.  An explicit, non-empty end date passed to [updateBookStatus id
    'completed'] is stored as given, whatever the current day and
    whatever [endDate] the record had; an explicit empty string counts as
    no end date and the current day is stored. *)
Theorem updateBookStatus_explicit_endDate books i b today e :
  getBook books i = Some b ->
  e <> "" ->
  (exists u books',
     run books (updateBookStatus today i completed (Some e))
     = (Resolved u, books')
     /\ endDate u = Some e
     /\ getBook books' i = Some u)
  /\ run books (updateBookStatus today i completed (Some ""))
     = run books (updateBookStatus today i completed None).
Proof.
  intros Hb He. split; [|reflexivity].
  destruct (find_by_id_Some _ _ _ Hb) as [_ Hi].
  destruct (run_updateBookStatus_found today i completed (Some e) books b Hb)
    as (u & Hrun & Hid & _ & _ & Hend).
  exists u. eexists. split; [exact Hrun|]. split.
  - rewrite Hend. cbn. apply String.eqb_neq in He. by rewrite He.
  - apply replaced_getBook; [congruence|by rewrite Hb].
Qed.

(** X1 at the first seed book, completed on 2024-05-05 with the end date
    2024-04-30. *)
Lemma updateBookStatus_explicit_endDate_witness :
  getBook INITIAL_BOOKS "1" = Some great_gatsby
  /\ "2024-04-30" <> ""
  /\ exists u books',
     run INITIAL_BOOKS
       (updateBookStatus "2024-05-05" "1" completed (Some "2024-04-30"))
     = (Resolved u, books')
     /\ endDate u = Some "2024-04-30"
     /\ getBook books' "1" = Some u.
Proof.
  split; [reflexivity|]. split; [discriminate|].
  apply (updateBookStatus_explicit_endDate
           INITIAL_BOOKS "1" great_gatsby "2024-05-05" "2024-04-30");
    [reflexivity|discriminate].
Defined.

(** X2.  A status change that is not a completion, and that is not a first
    start of reading, changes the status and nothing else: moving a record
    to [wantToRead], or to [reading] when it has a start date, stores the
    old record with the new status; dates, progress and rating stay. *)
Theorem updateBookStatus_only_status books i b today st e :
  getBook books i = Some b ->
  st <> completed ->
  (st = reading -> Js.truthy (startDate b) = true) ->
  run books (updateBookStatus today i st e)
  = (Resolved (with_status st b), replaced (with_status st b) books).
Proof.
  intros Hb Hst Hstart.
  unfold run, updateBookStatus, mbind, Action_bind, snapshot.
  unfold getBook in Hb. rewrite Hb.
  rewrite (bool_decide_eq_false_2 _ Hst).
  destruct (decide (st = reading)) as [Hr|Hr].
  - rewrite (Hstart Hr). by rewrite andb_false_r.
  - by rewrite (bool_decide_eq_false_2 _ Hr).
Qed.

(** X2 at the first seed book, completed with dates and rating, put back
    on the reading list. *)
Lemma updateBookStatus_only_status_witness :
  getBook INITIAL_BOOKS "1" = Some great_gatsby
  /\ wantToRead <> completed
  /\ (wantToRead = reading -> Js.truthy (startDate great_gatsby) = true)
  /\ run INITIAL_BOOKS (updateBookStatus "2024-05-05" "1" wantToRead None)
     = (Resolved (with_status wantToRead great_gatsby),
        [with_status wantToRead great_gatsby; mockingbird;
         nineteen_eighty_four]).
Proof.
  split; [reflexivity|]. split; [discriminate|]. split; [discriminate|].
  apply (updateBookStatus_only_status
           INITIAL_BOOKS "1" great_gatsby "2024-05-05" wantToRead None);
    [reflexivity|discriminate|discriminate].
Defined.

(** X3.  Whatever the transition, [updateBookStatus] writes a record that
    differs from the one it found in [status], [startDate] and [endDate]
    at most: [startDate] is the old one or the current day, [endDate] is
    the old one unless the new status is [completed]. *)
Theorem updateBookStatus_record_frame books i b today st e :
  getBook books i = Some b ->
  exists u books',
    run books (updateBookStatus today i st e) = (Resolved u, books')
    /\ u = mkBook (id b) (title b) (author b) (genre b) (publicationDate b)
             (pageCount b) (coverImage b) st (currentPage b) (startDate u)
             (endDate u) (isbn b) (publisher b) (language b) (notes b)
             (rating b)
    /\ (startDate u = startDate b \/ startDate u = Some today)
    /\ (endDate u = endDate b \/ st = completed).
Proof.
  intros Hb.
  unfold run, updateBookStatus, mbind, Action_bind, snapshot.
  unfold getBook in Hb. rewrite Hb. do 2 eexists.
  split; [reflexivity|]. destruct b.
  destruct (bool_decide (st = reading) && _);
    case_bool_decide; cbn; auto.
Qed.

(** X3 at the third seed book, started on 2024-05-05. *)
Lemma updateBookStatus_record_frame_witness :
  getBook INITIAL_BOOKS "3" = Some nineteen_eighty_four
  /\ exists u books',
    run INITIAL_BOOKS (updateBookStatus "2024-05-05" "3" reading None)
    = (Resolved u, books')
    /\ u = mkBook "3" "1984" "George Orwell" (Some "Dystopian Fiction")
             (Some "1949-06-08") (Some 328%Z) (Some None) reading None
             (startDate u) (endDate u) (Some "9780451524935")
             (Some "Signet Classic") (Some "English") None None
    /\ (startDate u = None \/ startDate u = Some "2024-05-05")
    /\ (endDate u = None \/ reading = completed).
Proof.
  split; [reflexivity|].
  apply (updateBookStatus_record_frame
           INITIAL_BOOKS "3" nineteen_eighty_four "2024-05-05" reading None).
  reflexivity.
Defined.

(** X4.  [updateBookProgress] writes a record that differs from the one
    it found in [currentPage], [status], [startDate] and [endDate] at
    most.  The new status is never [wantToRead]; a start date that was
    set is kept, and one that was not is set to the current day. *)
Theorem updateBookProgress_record_frame books i b today page :
  getBook books i = Some b ->
  exists u books',
    run books (updateBookProgress today i page) = (Resolved u, books')
    /\ u = mkBook (id b) (title b) (author b) (genre b) (publicationDate b)
             (pageCount b) (coverImage b) (status u) (Some page)
             (startDate u) (endDate u) (isbn b) (publisher b) (language b)
             (notes b) (rating b)
    /\ status u <> wantToRead
    /\ startDate u
       = (if Js.truthy (startDate b) then startDate b else Some today)
    /\ (endDate u = endDate b \/ status u = completed).
Proof.
  intros Hb.
  destruct (run_updateBookProgress_found today i page books b Hb)
    as (u & Hrun & Hid & Hcp & Hpc & Hst & Hsd & Hend).
  exists u. eexists. split; [exact Hrun|].
  split; [|split; [|split; [exact Hsd|]]].
  - revert Hrun.
    unfold run, updateBookProgress, updateBookStatus, mbind, Action_bind,
      snapshot.
    cbv beta. unfold getBook in Hb. rewrite Hb.
    destruct (bool_decide (status b <> reading)); cbv beta; rewrite ?Hb;
      intros [= <-]; destruct b; repeat case_match; reflexivity.
  - rewrite Hst. by case_match.
  - rewrite Hend, Hst. case_match; auto.
Qed.

(** X4 at the third seed book, never started, at page 10 on
    2024-05-05. *)
Lemma updateBookProgress_record_frame_witness :
  getBook INITIAL_BOOKS "3" = Some nineteen_eighty_four
  /\ exists u books',
    run INITIAL_BOOKS (updateBookProgress "2024-05-05" "3" 10)
    = (Resolved u, books')
    /\ status u <> wantToRead
    /\ startDate u = Some "2024-05-05"
    /\ currentPage u = Some 10%Z.
Proof.
  split; [reflexivity|].
  destruct (updateBookProgress_record_frame
              INITIAL_BOOKS "3" nineteen_eighty_four "2024-05-05" 10
              eq_refl)
    as (u & books' & Hrun & Hu & Hst & Hsd & _).
  exists u, books'. split; [exact Hrun|]. split; [exact Hst|].
  split; [exact Hsd|]. rewrite Hu. reflexivity.
Defined.

End StatusFrame.

(** ** Frames and compositions of the store operations *)

Section Frames.

Implicit Types (books : list Book) (i j today : string) (b u x book : Book).
Implicit Types (bookData : BookFormData) (random : Random).

Lemma find_by_id_replaced u books j :
  find_by_id (replaced u books) j
  = (fun book : Book => if decide (id book = id u) then u else book)
      <$> find_by_id books j.
Proof.
  induction books as [|x books IH]; [done|].
  cbn [fmap list_fmap]. rewrite !find_by_id_cons.
  destruct (decide (id x = id u)) as [Hx|Hx].
  - rewrite Hx. case_decide; [|exact IH]. cbn. by rewrite decide_True.
  - case_decide; [|exact IH]. cbn. by rewrite decide_False.
Qed.

Lemma find_by_id_filter_other books i j :
  j <> i ->
  find_by_id (filter (fun book : Book => id book <> i) books) j
  = find_by_id books j.
Proof.
  intros Hji. induction books as [|x books IH]; [done|].
  rewrite filter_cons. rewrite find_by_id_cons.
  destruct (decide (id x <> i)) as [Hx|Hx].
  - rewrite find_by_id_cons. by rewrite IH.
  - rewrite IH. rewrite decide_False; [done|].
    intros Hxj. apply Hx. congruence.
Qed.

(** X5.  [updateBook], [updateBookStatus] and [updateBookProgress] leave
    the sequence of ids of the collection exactly as it was, for every
    input and whether they resolve or reject: no id is changed, added,
    removed or moved. *)
Theorem update_operations_keep_ids books book i today st e page :
  id <$> snd (run books (updateBook book)) = id <$> books
  /\ id <$> snd (run books (updateBookStatus today i st e)) = id <$> books
  /\ id <$> snd (run books (updateBookProgress today i page))
     = id <$> books.
Proof.
  split; [|split].
  - rewrite run_updateBook. apply replaced_ids.
  - destruct (find_by_id books i) as [b|] eqn:Hb.
    + destruct (run_updateBookStatus_found today i st e books b Hb)
        as (u & -> & _). apply replaced_ids.
    + by rewrite run_updateBookStatus_absent.
  - destruct (find_by_id books i) as [b|] eqn:Hb.
    + destruct (run_updateBookProgress_found today i page books b Hb)
        as (u & -> & _). apply replaced_ids.
    + by rewrite run_updateBookProgress_absent.
Qed.

(** X6.  [updateBookStatus id] and [updateBookProgress id] keep the
    length of the collection, and every record whose id is not [id] stays
    unchanged at its position. *)
Theorem status_progress_touch_only_the_id books i today st e page :
  length (snd (run books (updateBookStatus today i st e))) = length books
  /\ length (snd (run books (updateBookProgress today i page)))
     = length books
  /\ forall k x, books !! k = Some x -> id x <> i ->
       snd (run books (updateBookStatus today i st e)) !! k = Some x
       /\ snd (run books (updateBookProgress today i page)) !! k = Some x.
Proof.
  destruct (find_by_id books i) as [b|] eqn:Hb.
  - destruct (find_by_id_Some _ _ _ Hb) as [_ Hi].
    destruct (run_updateBookStatus_found today i st e books b Hb)
      as (u & -> & Hu & _).
    destruct (run_updateBookProgress_found today i page books b Hb)
      as (v & -> & Hv & _).
    cbn [snd]. rewrite !replaced_length. split; [done|]. split; [done|].
    intros k x Hk Hx. rewrite !(replaced_lookup _ _ _ _ Hk).
    rewrite !decide_False by congruence. done.
  - rewrite run_updateBookStatus_absent, run_updateBookProgress_absent
      by done.
    cbn [snd]. auto.
Qed.

(** X6 at the seed collection: a change of the second seed book leaves
    the first one in place. *)
Lemma status_progress_touch_only_the_id_witness :
  INITIAL_BOOKS !! 0 = Some great_gatsby
  /\ id great_gatsby <> "2"
  /\ snd (run INITIAL_BOOKS (updateBookStatus "2024-05-05" "2" completed None))
       !! 0 = Some great_gatsby
  /\ snd (run INITIAL_BOOKS (updateBookProgress "2024-05-05" "2" 200))
       !! 0 = Some great_gatsby.
Proof.
  split; [reflexivity|]. split; [discriminate|].
  apply (proj2 (proj2 (status_progress_touch_only_the_id
                         INITIAL_BOOKS "2" "2024-05-05" completed None 200))
           0 great_gatsby);
    [reflexivity|discriminate].
Defined.

(** X8.  [deleteBook] on an id that no record carries resolves and leaves
    the collection as it was. *)
Theorem deleteBook_absent_is_noop books i :
  (forall b, b ∈ books -> id b <> i) ->
  run books (deleteBook i) = (Resolved tt, books).
Proof.
  intros Habs. rewrite run_deleteBook. by rewrite filter_other_ids_absent.
Qed.

(** X8 at the seed collection and the id 42. *)
Lemma deleteBook_absent_is_noop_witness :
  (forall b, b ∈ INITIAL_BOOKS -> id b <> "42")
  /\ run INITIAL_BOOKS (deleteBook "42") = (Resolved tt, INITIAL_BOOKS).
Proof.
  assert (Habs : forall b : Book, b ∈ INITIAL_BOOKS -> id b <> "42").
  { apply find_by_id_None. reflexivity. }
  split; [exact Habs|].
  exact (deleteBook_absent_is_noop INITIAL_BOOKS "42" Habs).
Defined.

(** X9.  [deleteBook id] keeps exactly the records whose id is not [id],
    in their order, and [getBook] on every other id answers as before. *)
Theorem deleteBook_frame books i :
  exists books',
    run books (deleteBook i) = (Resolved tt, books')
    /\ books' `sublist_of` books
    /\ (forall x, x ∈ books' <-> x ∈ books /\ id x <> i)
    /\ forall j, j <> i -> getBook books' j = getBook books j.
Proof.
  eexists. split; [apply run_deleteBook|]. split; [apply sublist_filter|].
  split.
  - intros x. rewrite list_elem_of_filter. tauto.
  - intros j Hj. by apply find_by_id_filter_other.
Qed.

(** X9 at the seed collection: deleting the second seed book leaves the
    lookup of the third as it was. *)
Lemma deleteBook_frame_witness :
  "3" <> "2"
  /\ exists books',
    run INITIAL_BOOKS (deleteBook "2") = (Resolved tt, books')
    /\ getBook books' "3" = getBook INITIAL_BOOKS "3".
Proof.
  split; [discriminate|].
  destruct (deleteBook_frame INITIAL_BOOKS "2")
    as (books' & Hrun & _ & _ & Hget).
  exists books'. split; [exact Hrun|]. apply Hget. discriminate.
Defined.

(** X10.  After [updateBook book], [getBook] on an id answers with the
    record it answered with before, except that a record carrying the id
    of [book] is answered by [book]; an id that had no record still has
    none. *)
Theorem updateBook_then_getBook books book j :
  getBook (snd (run books (updateBook book))) j
  = match getBook books j with
    | Some x => Some (if decide (j = id book) then book else x)
    | None => None
    end.
Proof.
  rewrite run_updateBook. cbn [snd]. unfold getBook.
  rewrite find_by_id_replaced.
  destruct (find_by_id books j) as [x|] eqn:Hx; [|done].
  destruct (find_by_id_Some _ _ _ Hx) as [_ <-]. cbn.
  by destruct (decide (id x = id book)).
Qed.

(** X11.  After [addBook], [getBook] answers every id that had a record
    with that same record, and the id assigned to the new record with the
    new record only if it had none; every other id still has none. *)
Theorem addBook_lookup_frame (random16 : Random) bookData books j :
  let newBook :=
    with_id (Js.str_or (id bookData) (generateUUID random16)) bookData in
  getBook (snd (run books (addBook random16 bookData))) j
  = match getBook books j with
    | Some x => Some x
    | None => if decide (id newBook = j) then Some newBook else None
    end.
Proof.
  intros newBook. rewrite run_addBook. cbn [snd]. unfold getBook.
  rewrite find_by_id_app, find_by_id_cons.
  by destruct (find_by_id books j).
Qed.

(** X12.  Adding a record under an id that no record carries and then
    deleting that id gives back the collection one started from. *)
Theorem addBook_then_deleteBook (random16 : Random) bookData books :
  (forall b, b ∈ books ->
     id b <> Js.str_or (id bookData) (generateUUID random16)) ->
  exists newBook books',
    run books (addBook random16 bookData) = (Resolved newBook, books')
    /\ run books' (deleteBook (id newBook)) = (Resolved tt, books).
Proof.
  intros Hfresh. do 2 eexists. split; [apply run_addBook|].
  rewrite run_deleteBook. cbn [id with_id]. f_equal.
  rewrite filter_app, filter_other_ids_absent by done.
  rewrite filter_cons_False by (cbn; intros Hne; by apply Hne).
  cbn. apply app_nil_r.
Qed.

(** X12 at the seed collection and a payload without id, every draw of
    the generator being 7. *)
Lemma addBook_then_deleteBook_witness :
  (forall b, b ∈ INITIAL_BOOKS ->
     id b <> Js.str_or (id dune_form) (generateUUID (constant_random 7)))
  /\ exists newBook books',
    run INITIAL_BOOKS (addBook (constant_random 7) dune_form)
    = (Resolved newBook, books')
    /\ run books' (deleteBook (id newBook)) = (Resolved tt, INITIAL_BOOKS).
Proof.
  assert (Hfresh : forall b : Book, b ∈ INITIAL_BOOKS ->
            id b <> Js.str_or (id dune_form)
                      (generateUUID (constant_random 7))).
  { apply find_by_id_None. vm_compute. reflexivity. }
  split; [exact Hfresh|].
  exact (addBook_then_deleteBook (constant_random 7) dune_form
           INITIAL_BOOKS Hfresh).
Defined.

(** X13.  Deleting an id twice is deleting it once, and two deletions
    give the same collection in either order. *)
Theorem deleteBook_idempotent_commutes books i j :
  snd (run (snd (run books (deleteBook i))) (deleteBook i))
  = snd (run books (deleteBook i))
  /\ snd (run (snd (run books (deleteBook i))) (deleteBook j))
     = snd (run (snd (run books (deleteBook j))) (deleteBook i)).
Proof.
  rewrite !run_deleteBook. cbn [snd].
  split.
  - apply filter_other_ids_absent. intros b Hb.
    by apply list_elem_of_filter in Hb as [? _].
  - induction books as [|x books IH]; [done|].
    rewrite !(filter_cons _ x).
    destruct (decide (id x <> i)), (decide (id x <> j));
      rewrite ?filter_cons_True, ?filter_cons_False by done;
      by rewrite ?IH.
Qed.

(** X14.  Of two successive [updateBook] calls with records of one id,
    the later one decides alone: the collection is the one the second
    call gives on the original collection. *)
Theorem updateBook_last_write_wins books b u :
  id b = id u ->
  snd (run (snd (run books (updateBook b))) (updateBook u))
  = snd (run books (updateBook u)).
Proof.
  intros Hid. rewrite !run_updateBook. cbn [snd].
  rewrite <- list_fmap_compose. apply list_fmap_ext.
  intros k x _. cbn. repeat case_decide; congruence.
Qed.

(** X14 at the seed collection: the third seed book is replaced by a
    record and then by another. *)
Lemma updateBook_last_write_wins_witness :
  id (with_id "3" dune) = id nineteen_eighty_four
  /\ snd (run (snd (run INITIAL_BOOKS (updateBook (with_id "3" dune))))
            (updateBook nineteen_eighty_four))
     = snd (run INITIAL_BOOKS (updateBook nineteen_eighty_four)).
Proof.
  split; [reflexivity|].
  apply (updateBook_last_write_wins INITIAL_BOOKS (with_id "3" dune)
           nineteen_eighty_four).
  reflexivity.
Defined.

End Frames.

(** ** Progress with a known page count, and writes of one render *)

Section SameRender.

Implicit Types (books : list Book) (i today : string) (b u book : Book).
Implicit Types (bookData : BookFormData).

(** X7 at the second seed book (281 pages), on its last page. *)
Lemma updateBookProgress_known_pageCount_witness :
  getBook INITIAL_BOOKS "2" = Some mockingbird
  /\ pageCount mockingbird = Some 281%Z
  /\ exists u books',
    run INITIAL_BOOKS (updateBookProgress "2024-05-05" "2" 281)
    = (Resolved u, books')
    /\ (status u = completed /\ endDate u = Some "2024-05-05"
        <-> (281 <= 281)%Z)
    /\ ((281 < 281)%Z -> status u = reading /\ endDate u = endDate mockingbird).
Proof.
  split; [reflexivity|]. split; [reflexivity|].
  apply (updateBookProgress_known_pageCount
           INITIAL_BOOKS "2" mockingbird "2024-05-05" 281 281);
    reflexivity.
Defined.

(** X15.  The closures of one render do not see each other's writes: when
    [addBook], [updateBook] or [deleteBook] runs after another action of
    the same render, the collection of the next render is the one the
    later call alone gives, and what the earlier action wrote is lost. *)
Theorem same_render_last_write_wins
    {A : Type} (m : Action A) a pending books
    (random16 : Random) bookData book i :
  m books None = (Resolved a, pending) ->
  snd (run books (m ;; addBook random16 bookData))
  = snd (run books (addBook random16 bookData))
  /\ snd (run books (m ;; updateBook book)) = snd (run books (updateBook book))
  /\ snd (run books (m ;; deleteBook i)) = snd (run books (deleteBook i)).
Proof.
  intros Hm. unfold run, mbind, Action_bind. rewrite Hm. done.
Qed.

(** X15 at the seed collection: of two books added from one render only
    the second is in the next collection. *)
Lemma same_render_last_write_wins_witness :
  addBook (constant_random 7) dune_form INITIAL_BOOKS None
  = (Resolved (with_id "77777777-7777-4777-b777-777777777777" dune_form),
     Some (INITIAL_BOOKS
           ++ [with_id "77777777-7777-4777-b777-777777777777" dune_form]))
  /\ snd (run INITIAL_BOOKS
            (addBook (constant_random 7) dune_form ;;
             addBook (constant_random 3) dune_form))
     = INITIAL_BOOKS
       ++ [with_id "33333333-3333-4333-b333-333333333333" dune_form].
Proof.
  assert (H1 : addBook (constant_random 7) dune_form INITIAL_BOOKS None
    = (Resolved (with_id "77777777-7777-4777-b777-777777777777" dune_form),
       Some (INITIAL_BOOKS
             ++ [with_id "77777777-7777-4777-b777-777777777777" dune_form])))
    by (vm_compute; reflexivity).
  split; [exact H1|].
  destruct (same_render_last_write_wins
              (addBook (constant_random 7) dune_form) _ _ INITIAL_BOOKS
              (constant_random 3) dune_form dune "1" H1) as (H2 & _).
  rewrite H2. vm_compute. reflexivity.
Defined.

End SameRender.

(** ** The shape of a generated id *)

Section UuidFormat.

Lemma toString16_digit (v : N) :
  (v < 16)%N ->
  exists c, Js.toString16 v = String c ""
            /\ In c (list_ascii_of_string "0123456789abcdef").
Proof.
  intros Hv.
  destruct v as [|p]; [eexists; split; [reflexivity|cbn; tauto]|].
  repeat (destruct p as [p|p|]; try lia;
          try (eexists; split; [reflexivity|cbn; tauto])).
Qed.

Lemma uuid_digit_x (r : N) :
  (r < 16)%N ->
  exists c, uuid_digit r "x" = String c ""
            /\ In c (list_ascii_of_string "0123456789abcdef-").
Proof.
  intros Hr. destruct (toString16_digit r Hr) as (c & Hc & Hin).
  exists c. split; [exact Hc|].
  cbn in Hin |- *. tauto.
Qed.

(** The variant digit does not depend on the range of the draw. *)
Lemma uuid_digit_y (r : N) :
  exists c, uuid_digit r "y" = String c ""
            /\ In c (list_ascii_of_string "89ab").
Proof.
  unfold uuid_digit. cbn [Ascii.eqb Bool.eqb].
  change 3%N with (N.ones 2). rewrite N.land_ones.
  pose proof (N.mod_upper_bound r (2 ^ 2) ltac:(done)) as Hlt.
  destruct (r mod 2 ^ 2)%N as [|p].
  - eexists; split; [reflexivity|cbn; tauto].
  - repeat (destruct p as [p|p|]; try (cbn in Hlt; lia);
            try (eexists; split; [reflexivity|cbn; tauto])).
Qed.

(** X16.  When every draw is below 16, as [Math.random() * 16 | 0] is,
    [generateUUID] yields 36 characters, each a lower-case hexadecimal
    digit or a dash, with dashes at the positions 8, 13, 18 and 23, the
    version digit 4 at position 14 and one of 8, 9, a, b at position
    19. *)
Theorem generateUUID_format (random16 : Random) :
  (forall k, (random16 k < 16)%N) ->
  String.length (generateUUID random16) = 36
  /\ Forall (fun c => In c (list_ascii_of_string "0123456789abcdef-"))
       (list_ascii_of_string (generateUUID random16))
  /\ String.get 8 (generateUUID random16) = Some "-"%char
  /\ String.get 13 (generateUUID random16) = Some "-"%char
  /\ String.get 18 (generateUUID random16) = Some "-"%char
  /\ String.get 23 (generateUUID random16) = Some "-"%char
  /\ String.get 14 (generateUUID random16) = Some "4"%char
  /\ exists c, String.get 19 (generateUUID random16) = Some c
               /\ In c (list_ascii_of_string "89ab").
Proof.
  intros Hr. unfold generateUUID, uuid_template.
  cbn [replace_xy Ascii.eqb Bool.eqb orb].
  destruct (uuid_digit_y (random16 15)) as (cy & -> & Hy).
  repeat match goal with
         | |- context [uuid_digit (random16 ?k) "x"] =>
             let c := fresh "c" in
             let Hc := fresh "Hc" in
             destruct (uuid_digit_x (random16 k) (Hr k)) as (c & -> & Hc)
         end.
  cbn [String.append String.length String.get list_ascii_of_string].
  split; [reflexivity|]. split.
  - assert (Hy' : In cy (list_ascii_of_string "0123456789abcdef-"))
      by (cbn in Hy |- *; tauto).
    repeat (constructor;
            [first [assumption
                   | solve [cbn; repeat ((left; reflexivity) || right)]]|]).
    constructor.
  - do 5 (split; [reflexivity|]). exists cy. split; [reflexivity|exact Hy].
Qed.

(** X16 with every draw equal to 7. *)
Lemma generateUUID_format_witness :
  (forall k, (constant_random 7 k < 16)%N)
  /\ generateUUID (constant_random 7)
     = "77777777-7777-4777-b777-777777777777"
  /\ String.length (generateUUID (constant_random 7)) = 36.
Proof.
  assert (Hr : forall k, (constant_random 7 k < 16)%N)
    by (intros k; reflexivity).
  split; [exact Hr|]. split; [vm_compute; reflexivity|].
  exact (proj1 (generateUUID_format (constant_random 7) Hr)).
Defined.

End UuidFormat.

(** ** Loading and saving *)

Section Persistence.

Implicit Types (json : Json) (dev : Storage) (p : Provider.state).

(** The paths of [loadBooks], for the statements below. *)
Lemma loadBooks_cases json dev p :
  Provider.loading (fst (loadBooks json dev p)) = false
  /\ (forall text parsed,
        read_rejects dev = false -> slot dev = Some text -> text <> "" ->
        parse json text = Resolved parsed ->
        Provider.books (fst (loadBooks json dev p)) = parsed)
  /\ (read_rejects dev = true \/ Js.truthy (slot dev) = false
      \/ (exists text msg, slot dev = Some text
                           /\ parse json text = Rejected msg) ->
      Provider.books (fst (loadBooks json dev p)) = INITIAL_BOOKS).
Proof.
  unfold loadBooks, getItem, setItem. split; [|split].
  - by repeat case_match.
  - intros text parsed Hread Hslot Htext Hparse.
    rewrite Hread, Hslot. cbn. apply String.eqb_neq in Htext.
    rewrite Htext. cbn. by rewrite Hparse.
  - intros [Hread|[Hempty|(text & msg & Hslot & Hparse)]].
    + by rewrite Hread.
    + destruct (read_rejects dev); [done|]. rewrite Hempty.
      by destruct (write_rejects dev).
    + destruct (read_rejects dev); [done|]. rewrite Hslot. cbn.
      destruct (String.eqb text ""); cbn.
      * by destruct (write_rejects dev).
      * by rewrite Hparse.
Qed.

(** X17.  [loadBooks] always ends with [loading] false.  The collection
    it leaves is the parsed one when the read resolves to a non-empty text
    that parses, and the seed collection in every other case: the slot is
    empty or holds the empty string, the read rejects, the text does not
    parse, or the write of the seed rejects. *)
Theorem loadBooks_result json dev p :
  Provider.loading (fst (loadBooks json dev p)) = false
  /\ (forall text parsed,
        read_rejects dev = false -> slot dev = Some text -> text <> "" ->
        parse json text = Resolved parsed ->
        Provider.books (fst (loadBooks json dev p)) = parsed)
  /\ (read_rejects dev = true \/ Js.truthy (slot dev) = false
      \/ (exists text msg, slot dev = Some text
                           /\ parse json text = Rejected msg) ->
      Provider.books (fst (loadBooks json dev p)) = INITIAL_BOOKS).
Proof. exact (loadBooks_cases json dev p). Qed.

(** X17 on a device whose slot holds a text, and on one whose read
    rejects. *)
Lemma loadBooks_result_witness :
  read_rejects (mkStorage (Some "[seed]") false false) = false
  /\ "[seed]" <> ""
  /\ parse sample_json "[seed]" = Resolved INITIAL_BOOKS
  /\ Provider.books
       (fst (loadBooks sample_json (mkStorage (Some "[seed]") false false)
               Provider.initial))
     = INITIAL_BOOKS
  /\ Provider.books
       (fst (loadBooks sample_json (mkStorage (Some "[seed]") true false)
               Provider.initial))
     = INITIAL_BOOKS.
Proof.
  split; [reflexivity|]. split; [discriminate|]. split; [reflexivity|].
  split.
  - apply (proj1 (proj2 (loadBooks_result sample_json
                           (mkStorage (Some "[seed]") false false)
                           Provider.initial)) "[seed]" INITIAL_BOOKS);
      [reflexivity|reflexivity|discriminate|reflexivity].
  - apply (proj2 (proj2 (loadBooks_result sample_json
                           (mkStorage (Some "[seed]") true false)
                           Provider.initial))).
    left. reflexivity.
Defined.

(** X18.  [loadBooks] itself never replaces a non-empty stored text, even
    one that does not parse, and never changes the device when the read or
    the write rejects; it writes only when the read resolves to nothing or
    to the empty string, and then it writes the seed collection. *)
Theorem loadBooks_storage json dev p :
  (Js.truthy (slot dev) = true \/ read_rejects dev = true
   \/ write_rejects dev = true ->
   snd (loadBooks json dev p) = dev)
  /\ (Js.truthy (slot dev) = false -> read_rejects dev = false ->
      write_rejects dev = false ->
      slot (snd (loadBooks json dev p))
      = Some (stringify json INITIAL_BOOKS)).
Proof.
  unfold loadBooks, getItem, setItem. split.
  - intros [Hfull|[Hread|Hwrite]].
    + destruct (read_rejects dev); [done|]. rewrite Hfull.
      repeat case_match; by simplify_eq.
    + by rewrite Hread.
    + rewrite Hwrite. repeat case_match; by simplify_eq.
  - intros Hempty Hread Hwrite. by rewrite Hread, Hempty, Hwrite.
Qed.

(** X18 on a device holding a text that does not parse, and on an empty
    device. *)
Lemma loadBooks_storage_witness :
  let broken := mkJson (fun _ => Rejected "SyntaxError") (fun _ => "[seed]") in
  Js.truthy (slot (mkStorage (Some "{") false false)) = true
  /\ snd (loadBooks broken (mkStorage (Some "{") false false)
            Provider.initial)
     = mkStorage (Some "{") false false
  /\ slot (snd (loadBooks broken (mkStorage None false false)
                  Provider.initial))
     = Some "[seed]".
Proof.
  intros broken. split; [reflexivity|]. split.
  - apply (proj1 (loadBooks_storage broken
                    (mkStorage (Some "{") false false) Provider.initial)).
    left. reflexivity.
  - apply (proj2 (loadBooks_storage broken (mkStorage None false false)
                    Provider.initial));
      reflexivity.
Defined.

(** X19.  Once [loadBooks] has set [loading] to false the save effect
    writes the collection in memory: when writes do not reject, the slot
    then holds the text of that collection, so that a stored text which
    could not be read or parsed has been replaced by the seed
    collection. *)
Theorem mount_then_save json dev p :
  write_rejects dev = false ->
  let '(p', dev') := loadBooks json dev p in
  slot (saveEffect json p' dev') = Some (stringify json (Provider.books p'))
  /\ ((exists text msg, slot dev = Some text
                        /\ parse json text = Rejected msg) ->
      slot (saveEffect json p' dev') = Some (stringify json INITIAL_BOOKS)).
Proof.
  intros Hwrite.
  pose proof (loadBooks_cases json dev p) as (Hload & _ & Hseed).
  destruct (loadBooks json dev p) as [p' dev'] eqn:Hl. cbn [fst] in *.
  assert (Hw : write_rejects dev' = false).
  { revert Hl. unfold loadBooks, getItem, setItem. rewrite Hwrite.
    repeat case_match; intros; by simplify_eq/=. }
  assert (Hs : slot (saveEffect json p' dev')
               = Some (stringify json (Provider.books p'))).
  { unfold saveEffect, saveBooks, setItem. by rewrite Hload, Hw. }
  split; [exact Hs|]. intros Hbroken. rewrite Hs, Hseed; [done|].
  right. right. exact Hbroken.
Qed.

(** X19 on a device holding a text that does not parse. *)
Lemma mount_then_save_witness :
  let broken := mkJson (fun _ => Rejected "SyntaxError") (fun _ => "[seed]") in
  let dev := mkStorage (Some "{") false false in
  write_rejects dev = false
  /\ slot (saveEffect broken (fst (loadBooks broken dev Provider.initial))
             (snd (loadBooks broken dev Provider.initial)))
     = Some "[seed]".
Proof.
  intros broken dev. split; [reflexivity|].
  pose proof (mount_then_save broken dev Provider.initial eq_refl) as H.
  destruct (loadBooks broken dev Provider.initial) as [p' dev'].
  destruct H as [_ H]. apply H. exists "{", "SyntaxError". by split.
Defined.

(** X20.  What the save effect wrote is what a later [loadBooks] reads
    back: when the collection is not loading, neither write nor read
    rejects, and the text of the collection is not empty and parses to the
    collection, loading from the saved device gives that collection.
    While [loading] is true the save effect does not touch the device. *)
Theorem save_then_load json dev p p0 :
  (Provider.loading p = false ->
   write_rejects dev = false -> read_rejects dev = false ->
   stringify json (Provider.books p) <> "" ->
   parse json (stringify json (Provider.books p))
   = Resolved (Provider.books p) ->
   Provider.books (fst (loadBooks json (saveEffect json p dev) p0))
   = Provider.books p)
  /\ (Provider.loading p = true -> saveEffect json p dev = dev).
Proof.
  split.
  - intros Hl Hw Hr Htext Hparse.
    apply (proj1 (proj2 (loadBooks_cases json _ p0))
             (stringify json (Provider.books p))); try done.
    + unfold saveEffect, saveBooks, setItem. by rewrite Hl, Hw.
    + unfold saveEffect, saveBooks, setItem. by rewrite Hl, Hw.
  - intros Hl. unfold saveEffect. by rewrite Hl.
Qed.

(** X20 with the seed collection in memory. *)
Lemma save_then_load_witness :
  let p := Provider.mk INITIAL_BOOKS false in
  let dev := mkStorage None false false in
  Provider.loading p = false
  /\ stringify sample_json (Provider.books p) <> ""
  /\ parse sample_json (stringify sample_json (Provider.books p))
     = Resolved (Provider.books p)
  /\ Provider.books
       (fst (loadBooks sample_json (saveEffect sample_json p dev)
               Provider.initial))
     = INITIAL_BOOKS.
Proof.
  intros p dev. split; [reflexivity|]. split; [discriminate|].
  split; [reflexivity|].
  apply (proj1 (save_then_load sample_json dev p Provider.initial));
    [reflexivity|reflexivity|reflexivity|discriminate|reflexivity].
Defined.

End Persistence.

(** ** The screens on top of the store *)

Section Screens.

Implicit Types (books : list Book) (i today : string) (b u book : Book).
Implicit Types (text : Form.Text) (bookData : Form.BookData).

(** X21.  The Update button of the progress prompt reaches the store only
    with a page between 1 and the page count of a record whose page count
    is known and not 0.  When the screen holds the stored record, the
    record it then stores has a [currentPage] within the page count and is
    completed exactly on the last page; on every other input the alert is
    shown and the collection stays as it was. *)
Theorem progress_prompt_update books book today page :
  getBook books (id book) = Some book ->
  match run books (handleUpdateProgress_onPress today book page) with
  | (Resolved InvalidPage, books') =>
      books' = books
      /\ (forall n q, page = Some q -> pageCount book = Some n ->
            (q < 1 \/ n = 0 \/ n < q)%Z)
  | (Resolved (SetBook u), books') =>
      exists q n,
        page = Some q /\ pageCount book = Some n /\ (1 <= q <= n)%Z
        /\ currentPage u = Some q /\ pageCount u = Some n
        /\ (status u = completed <-> q = n)
        /\ (status u = reading <-> (q < n)%Z)
        /\ getBook books' (id book) = Some u
  | (Rejected _, _) => False
  end.
Proof.
  intros Hb. unfold handleUpdateProgress_onPress.
  destruct page as [q|]; [|by split].
  destruct (pageCount book) as [n|] eqn:Hn; cbn [num_truthy num_gt negb].
  2: { rewrite orb_true_r. cbn. by split. }
  destruct (Z.ltb_spec q 1) as [Hq|Hq]; cbn [orb].
  { split; [done|]. intros ? ? [= <-] [= <-]. lia. }
  destruct (Z.eqb_spec n 0) as [Hz|Hz]; cbn [negb orb].
  { split; [done|]. intros ? ? [= <-] [= <-]. lia. }
  destruct (Z.gtb_spec q n) as [Hgt|Hle].
  { split; [done|]. intros ? ? [= <-] [= <-]. lia. }
  destruct (run_updateBookProgress_found today (id book) q books book Hb)
    as (u & Hrun & Hid & Hcp & Hpc & Hst & _ & _).
  revert Hrun. unfold run, mbind, Action_bind.
  destruct (updateBookProgress today (id book) q books None)
    as [[v|msg] pending]; [|discriminate].
  intros [= -> Hnext]. cbn [mret Action_ret]. rewrite Hnext.
  exists q, n. rewrite Hn in Hpc, Hst.
  rewrite num_or_zero in Hst. cbn in Hst.
  split; [done|]. split; [done|]. split; [lia|]. split; [done|].
  split; [done|]. split; [|split].
  - rewrite Hst. destruct (Z.geb_spec q n); split; (done || lia).
  - rewrite Hst. destruct (Z.geb_spec q n); split; (done || lia).
  - apply replaced_getBook; [done|by rewrite Hb].
Qed.

(** X21 at the second seed book (281 pages) and page 200. *)
Lemma progress_prompt_update_witness :
  getBook INITIAL_BOOKS (id mockingbird) = Some mockingbird
  /\ exists u books',
    run INITIAL_BOOKS
      (handleUpdateProgress_onPress "2024-05-05" mockingbird (Some 200%Z))
    = (Resolved (SetBook u), books')
    /\ currentPage u = Some 200%Z
    /\ status u = reading.
Proof.
  split; [reflexivity|].
  pose proof (progress_prompt_update INITIAL_BOOKS mockingbird "2024-05-05"
                (Some 200%Z) eq_refl) as H.
  destruct (run INITIAL_BOOKS
              (handleUpdateProgress_onPress "2024-05-05" mockingbird
                 (Some 200%Z)))
    as [[[|u]|msg] books'] eqn:Hrun.
  - exfalso. destruct H as [_ H].
    destruct (H 281%Z 200%Z eq_refl eq_refl) as [H1|[H1|H1]];
      discriminate H1.
  - destruct H as (q & n & [= <-] & [= <-] & _ & Hcp & _ & _ & Hst & _).
    exists u, books'. split; [reflexivity|]. split; [exact Hcp|].
    apply Hst. reflexivity.
  - destruct H.
Defined.

(** X22.  An edit that passes validation stores, under [params.id], a
    record made of the form fields alone: whatever the record had before,
    the stored one has no [currentPage], [rating], [publisher] or
    [language], and its optional text fields are set even when the form
    left them empty. *)
Theorem handleSave_edit_keeps_form_fields_only
    text (random16 : Random) pid bookData numericPageCount books old :
  snd (validateForm text bookData) = true ->
  pid <> "" ->
  getBook books pid = Some old ->
  exists u books',
    run books
      (handleSave text random16 (Some pid) bookData numericPageCount)
    = (Resolved (fst (validateForm text bookData),
                 ("Success", "Book updated successfully!")), books')
    /\ getBook books' pid = Some u
    /\ id u = pid
    /\ title u = Form.title bookData
    /\ author u = Form.author bookData
    /\ status u = Form.status bookData
    /\ startDate u = Some (Form.startDate bookData)
    /\ endDate u = Some (Form.endDate bookData)
    /\ currentPage u = None
    /\ rating u = None
    /\ publisher u = None
    /\ language u = None.
Proof.
  intros Hvalid Hpid Hold. unfold handleSave.
  destruct (validateForm text bookData) as [newErrors valid].
  cbn [fst snd] in *. subst valid.
  unfold Js.truthy. apply String.eqb_neq in Hpid. rewrite Hpid.
  cbn [negb default].
  do 2 eexists. split; [reflexivity|]. cbn [next_books].
  split; [apply replaced_getBook; [reflexivity|by rewrite Hold]|].
  by repeat split.
Qed.

(** X22 at the second seed book, which has a publisher, a language and a
    current page, edited with the sample form. *)
Lemma handleSave_edit_keeps_form_fields_only_witness :
  snd (validateForm sample_text sample_form) = true
  /\ "2" <> ""
  /\ getBook INITIAL_BOOKS "2" = Some mockingbird
  /\ publisher mockingbird = Some "HarperPerennial Modern Classics"
  /\ currentPage mockingbird = Some 120%Z
  /\ exists u books',
    snd (run INITIAL_BOOKS
           (handleSave sample_text (constant_random 7) (Some "2")
              sample_form (Some 300%Z)))
    = books'
    /\ getBook books' "2" = Some u
    /\ currentPage u = None
    /\ publisher u = None.
Proof.
  split; [reflexivity|]. split; [discriminate|]. split; [reflexivity|].
  split; [reflexivity|]. split; [reflexivity|].
  destruct (handleSave_edit_keeps_form_fields_only
              sample_text (constant_random 7) "2" sample_form (Some 300%Z)
              INITIAL_BOOKS mockingbird eq_refl ltac:(discriminate) eq_refl)
    as (u & books' & Hrun & Hget & _ & _ & _ & _ & _ & _ & Hcp & _ & Hpub & _).
  exists u, books'. rewrite Hrun. split; [reflexivity|].
  split; [exact Hget|]. split; [exact Hcp|exact Hpub].
Defined.

(** X23.  An edit whose [params.id] no record of the collection carries
    passes validation, shows the success alert and leaves the collection
    as it was. *)
Theorem handleSave_edit_of_missing_id
    text (random16 : Random) pid bookData numericPageCount books :
  snd (validateForm text bookData) = true ->
  pid <> "" ->
  (forall b, b ∈ books -> id b <> pid) ->
  run books (handleSave text random16 (Some pid) bookData numericPageCount)
  = (Resolved (fst (validateForm text bookData),
               ("Success", "Book updated successfully!")), books).
Proof.
  intros Hvalid Hpid Habs. unfold handleSave.
  destruct (validateForm text bookData) as [newErrors valid].
  cbn [fst snd] in *. subst valid.
  unfold Js.truthy. apply String.eqb_neq in Hpid. rewrite Hpid.
  cbn [negb default].
  unfold run, updateBook, mbind, Action_bind, snapshot, setBooks, mret,
    Action_ret.
  cbv beta iota. cbn [next_books].
  by rewrite replaced_absent.
Qed.

(** X23 at the seed collection and the id 42. *)
Lemma handleSave_edit_of_missing_id_witness :
  snd (validateForm sample_text sample_form) = true
  /\ "42" <> ""
  /\ (forall b, b ∈ INITIAL_BOOKS -> id b <> "42")
  /\ run INITIAL_BOOKS
       (handleSave sample_text (constant_random 7) (Some "42") sample_form
          (Some 300%Z))
     = (Resolved (fst (validateForm sample_text sample_form),
                  ("Success", "Book updated successfully!")),
        INITIAL_BOOKS).
Proof.
  assert (Habs : forall b : Book, b ∈ INITIAL_BOOKS -> id b <> "42").
  { apply find_by_id_None. reflexivity. }
  split; [reflexivity|]. split; [discriminate|]. split; [exact Habs|].
  apply (handleSave_edit_of_missing_id sample_text (constant_random 7) "42"
           sample_form (Some 300%Z) INITIAL_BOOKS);
    [reflexivity|discriminate|exact Habs].
Defined.



(** X25.  A form whose title or author trims to nothing, or whose
    non-empty page count is not a number, does not reach the store:
    [handleSave] shows the error alert, [setBooks] is not called and the
    collection stays as it was, when adding as when editing. *)
Theorem handleSave_invalid_form
    text (random16 : Random) params_id bookData numericPageCount books :
  Form.trim text (Form.title bookData) = ""
  \/ Form.trim text (Form.author bookData) = ""
  \/ (Form.pageCount bookData <> ""
      /\ Form.number_isNaN text (Form.pageCount bookData) = true) ->
  run books (handleSave text random16 params_id bookData numericPageCount)
  = (Resolved (fst (validateForm text bookData),
               ("Error", "Please fill in all required fields correctly")),
     books)
  /\ snd (handleSave text random16 params_id bookData numericPageCount
            books None) = None.
Proof.
  intros Hbad.
  assert (Hinvalid : snd (validateForm text bookData) = false).
  { unfold validateForm. cbn [snd].
    destruct Hbad as [Ht|[Ha|[Hp Hn]]].
    - by rewrite Ht.
    - rewrite Ha. cbn. by case_match.
    - apply String.eqb_neq in Hp. rewrite Hp, Hn. cbn.
      by repeat case_match. }
  unfold handleSave.
  destruct (validateForm text bookData) as [newErrors valid].
  cbn [fst snd] in *. by subst valid.
Qed.

(** X25 with the sample form, its title removed. *)
Lemma handleSave_invalid_form_witness :
  let untitled :=
    Form.mk "" "Herbert" "" "" "" "" None wantToRead "" "" "" in
  Form.trim sample_text (Form.title untitled) = ""
  /\ run INITIAL_BOOKS
       (handleSave sample_text (constant_random 7) None untitled None)
     = (Resolved (fst (validateForm sample_text untitled),
                  ("Error", "Please fill in all required fields correctly")),
        INITIAL_BOOKS).
Proof.
  intros untitled. split; [reflexivity|].
  apply (handleSave_invalid_form sample_text (constant_random 7) None
           untitled None INITIAL_BOOKS).
  left. reflexivity.
Defined.

End Screens.
